(** * exitmap: the scanner's driver (src/exitmap.py)

    A shallow embedding of [select_exits], [run_module] and [main] and of
    the parts of their collaborators they call, with the properties of the
    design document that concern them.

    The driver is sequential code that mutates one shared [Statistics]
    object, talks to the Tor controller, sleeps and logs.  It is embedded
    in a small monad that threads the process state, records every
    externally visible action in a chronological trace, and ends in a
    normal return, a raised exception or a process exit. *)

From Stdlib Require Import ZArith QArith String Ascii List Permutation.
From Stdlib Require Import DecimalString.
From stdpp Require Import base list.
Import ListNotations.

Local Open Scope Z_scope.

(** ** Data *)

Abbreviation fingerprint := string (only parsing).

(** The resolved address of a destination: the value of the dotted quad
    [socket.gethostbyname] returns. *)
Abbreviation address := Z (only parsing).

(** A Python float: a finite value, an infinity or not-a-number. *)
Inductive pyfloat :=
| Finite (q : Q)
| PosInf
| NegInf
| NaN.

(** [stats.Statistics]: three Python integers. *)
Record Statistics := mkStatistics {
  total_circuits : Z;
  failed_circuits : Z;
  modules_run : Z
}.

(** The namespace [parse_cmd_args] returns.  [country] and [exit] default
    to [None]; [build_delay] is whatever float [-d] parsed to. *)
Record Args := mkArgs {
  country : option string;
  exit : option string;
  consensus : string;
  build_delay : pyfloat;
  temp_dir : string;
  verbosity : string;
  first_hop : string;
  module : list string
}.

(** An imported probe module: its [destinations] attribute ([None] or a
    list of (host, port) pairs) and its [probe] callback, which the driver
    only hands on to the event handler and is kept as a token. *)
Record ProbeModule := mkProbeModule {
  destinations : option (list (string * Z));
  probe : string
}.

(** ** Exceptions and outcomes *)

Inductive exn :=
| ExitSelectionError (msg : string)   (* error.ExitSelectionError *)
| gaierror (host : string)            (* socket.gaierror, from gethostbyname *)
| ControllerError                     (* stem.ControllerError *)
| ImportError (name : string)
| IndexError
| KeyError (key : string)             (* a missing dictionary key *)
| IOError (msg : string)              (* time.sleep on a delay it refuses *)
| OtherError (origin : string).       (* any other error of a collaborator *)

(** How a piece of driver code ends: it returns a value, an exception
    leaves it, or [exit(code)] ends the process. *)
Inductive outcome (A : Type) :=
| Return (a : A)
| Raise (e : exn)
| SystemExit (code : Z).
Arguments Return {A} a.
Arguments Raise {A} e.
Arguments SystemExit {A} code.

(** ** The trace of visible actions *)

Inductive level := DEBUG | INFO | WARNING | ERROR | CRITICAL.

(** One constructor per logging call of the file, with the values the
    message is formatted from (elapsed times are left out). *)
Inductive message :=
| MsgArguments
| MsgInvokeTor (dir : string)
| MsgTorFailed
| MsgTorStarted
| MsgRedirect
| MsgFirstHopMissing (fpr : fingerprint)
| MsgNoConsensus (path : string)
| MsgSelected
| MsgExitCounts (n : nat) (cc : option string) (total : Z)
                (hosts : list (address * Z))
| MsgRunning (name : string)
| MsgImportFailed (name : string)
| MsgDelay (delay : pyfloat) (count : Z)
| MsgTrigger (count : Z)
| MsgCircuitFailed (exit_relay : fingerprint)
| MsgDone.

Inductive event :=
| EvLog (lvl : level) (m : message)
| EvNewCircuit (path : list fingerprint)   (* controller.new_circuit(path) *)
| EvSleep (seconds : pyfloat)              (* time.sleep(seconds) returned *)
| EvAddListener (callback : string)        (* controller.add_event_listener *)
| EvSetConf (key value : string)           (* controller.set_conf *)
| EvConnect                                (* Controller.from_port *)
| EvStats (s : Statistics).                (* a write to the shared stats object *)

(** ** Process state and the driver monad *)

(** [stats] is the one [Statistics] object of the run; [draws] counts the
    calls made to the random generator and [calls] the circuit requests
    sent to the controller, so that both collaborators may answer each
    call differently. *)
Record state := mkState {
  stats : Statistics;
  draws : nat;
  calls : nat
}.

Definition M (A : Type) : Type := state -> outcome A * state * list event.

Definition ret {A} (a : A) : M A := fun s => (Return a, s, []).

Definition bind {A B} (m : M A) (f : A -> M B) : M B := fun s =>
  match m s with
  | (Return a, s1, t1) =>
      let '(o, s2, t2) := f a s1 in (o, s2, t1 ++ t2)
  | (Raise e, s1, t1) => (Raise e, s1, t1)
  | (SystemExit c, s1, t1) => (SystemExit c, s1, t1)
  end.

Declare Scope drv_scope.
Delimit Scope drv_scope with drv.
Notation "x <- c ;; k" := (bind c (fun x => k))
  (at level 100, c at next level, right associativity) : drv_scope.
Notation "c ;; k" := (bind c (fun _ => k))
  (at level 100, right associativity) : drv_scope.
Local Open Scope drv_scope.

Definition emit (e : event) : M unit := fun s => (Return tt, s, [e]).
Definition raise {A} (e : exn) : M A := fun s => (Raise e, s, []).
Definition sys_exit {A} (code : Z) : M A := fun s => (SystemExit code, s, []).
Definition log (lvl : level) (m : message) : M unit := emit (EvLog lvl m).

(** A call to a collaborator that raises the error given, if any. *)
Definition or_raise (err : option exn) : M unit :=
  match err with
  | Some e => raise e
  | None => ret tt
  end.

(** [try: m except e if handles e: h e]. *)
Definition try_except {A} (m : M A) (handles : exn -> bool)
    (h : exn -> M A) : M A := fun s =>
  match m s with
  | (Raise e, s1, t1) =>
      if handles e
      then let '(o, s2, t2) := h e s1 in (o, s2, t1 ++ t2)
      else (Raise e, s1, t1)
  | r => r
  end.

(** In-place updates of the shared statistics; each write is visible to
    whoever holds the object, so it is recorded in the trace. *)
Definition update_stats (f : Statistics -> Statistics) : M unit := fun s =>
  let st := f (stats s) in
  (Return tt, mkState st (draws s) (calls s), [EvStats st]).

Definition add_total (n : Z) (st : Statistics) : Statistics :=
  mkStatistics (total_circuits st + n) (failed_circuits st) (modules_run st).
Definition add_failed (n : Z) (st : Statistics) : Statistics :=
  mkStatistics (total_circuits st) (failed_circuits st + n) (modules_run st).
Definition add_modules_run (n : Z) (st : Statistics) : Statistics :=
  mkStatistics (total_circuits st) (failed_circuits st) (modules_run st + n).

(** Python truthiness of an optional string: [None] and [""] are false. *)
Definition truthy (o : option string) : bool :=
  match o with
  | Some EmptyString => false
  | Some _ => true
  | None => false
  end.

(** ["%d" % n] for an integer. *)
Definition fmt_d (n : Z) : string := NilZero.string_of_int (Z.to_int n).

(** ** The relay catalog and exit-policy matching *)

(** Modelled from the spec: one rule of a relay's exit policy (the policy
    classes of the consensus parser are not under src/).  Section 3 gives a
    policy as an ordered list of accept/reject rules over address and port
    ranges. *)
Record PolicyRule := mkRule {
  rule_accept : bool;
  addr_lo : address;
  addr_hi : address;
  port_lo : Z;
  port_hi : Z
}.

(** Modelled from the spec: the RelayRecord of section 3 (fingerprint, IP
    address, exit policy) with the country code section 6 asks the catalog
    to supply; the descriptor type is not under src/. *)
Record RelayRecord := mkRelay {
  relay_fingerprint : fingerprint;
  relay_address : address;
  exit_policy : list PolicyRule;
  relay_country : string
}.

(** Modelled from the spec: a rule covers a destination when the address and
    the port lie in its ranges (rule evaluation is not under src/). *)
Definition rule_matches (r : PolicyRule) (d : address * Z) : bool :=
  (addr_lo r <=? fst d) && (fst d <=? addr_hi r) &&
  (port_lo r <=? snd d) && (snd d <=? port_hi r).

(** Modelled from the spec: policy evaluation, missing from src/: rules are
    tried in declared order, the first match wins, and a destination no
    rule matches is rejected (section 4.1). *)
Fixpoint can_exit_to (policy : list PolicyRule) (d : address * Z) : bool :=
  match policy with
  | [] => false
  | r :: rest => if rule_matches r d then rule_accept r else can_exit_to rest d
  end.

Definition upper_ascii (c : ascii) : ascii :=
  let n := nat_of_ascii c in
  if ((97 <=? n) && (n <=? 122))%nat then ascii_of_nat (n - 32) else c.

Fixpoint upper (s : string) : string :=
  match s with
  | EmptyString => EmptyString
  | String c rest => String (upper_ascii c) (upper rest)
  end.

(** Modelled from the spec: the country filter of the absent
    exitselector.get_exits: when a filter is set the relay's country code
    must equal it, compared without regard to case (section 4.1). *)
Definition country_matches (cc : option string) (r : RelayRecord) : bool :=
  match cc with
  | None => true
  | Some c => String.eqb (upper c) (upper (relay_country r))
  end.

(** Modelled from the spec: when a relay qualifies, as the absent
    exitselector.get_exits decides it: the policy accepts every declared
    destination (all relays when there is none) and the country filter, if
    any, matches (section 4.1). *)
Definition qualifies (cc : option string) (hosts : list (address * Z))
    (r : RelayRecord) : bool :=
  country_matches cc r && forallb (can_exit_to (exit_policy r)) hosts.

(** The qualifying set: the fingerprints of the qualifying relays of the
    catalog, one per relay record. *)
Definition qualifying_set (catalog : list RelayRecord) (cc : option string)
    (hosts : list (address * Z)) : list fingerprint :=
  map relay_fingerprint (List.filter (qualifies cc hosts) catalog).

(** Modelled from the spec: exitselector.get_exits, which is not under
    src/: it returns the count of the catalog's relays (the "total" of the
    diagnostic message) and the qualifying fingerprints (sections 2, 4.1). *)
Definition get_exits (catalog : list RelayRecord) (country_code : option string)
    (hosts : list (address * Z)) : Z * list fingerprint :=
  (Z.of_nat (length catalog), qualifying_set catalog country_code hosts).

(** ** The collaborators of the driver *)

(** Everything the driver calls and does not define: helpers of [util],
    the file system, the resolver, the module loader, the random generator,
    the clock, the logging module and the Tor controller.  [random k] is
    the [k]-th value the generator yields and [new_circuit_ok k path] tells
    whether the controller acknowledges the [k]-th circuit request, for
    [path].  The fields named [_raises] give the error a call ends in, or
    [None] when it succeeds: [set_level_raises name] for the lookup of
    [name] in [logging.__dict__] and [setLevel], [listener_raises probe]
    for building the event handler of [probe] and registering it, and
    [sleep_raises d] for [time.sleep(d)]. *)
Record World := mkWorld {
  get_consensus_path : Args -> string;                 (* util *)
  relay_in_consensus : fingerprint -> string -> bool;  (* util *)
  path_exists : string -> bool;                        (* os.path.exists *)
  read_catalog : string -> list RelayRecord;           (* the consensus file *)
  gethostbyname : string -> option address;            (* socket *)
  import_module : string -> option ProbeModule;        (* __import__ *)
  random : nat -> nat;
  new_circuit_ok : nat -> list fingerprint -> bool;
  tor_starts : bool;                                   (* launch_tor_with_config *)
  new_Statistics : Statistics;                         (* Statistics() *)
  set_level_raises : string -> option exn;
  from_port_raises : option exn;                       (* Controller.from_port *)
  authenticate_raises : option exn;                    (* stem.connection *)
  set_conf_raises : string -> string -> option exn;    (* controller.set_conf *)
  listener_raises : string -> option exn;
  sleep_raises : pyfloat -> option exn                 (* time.sleep *)
}.

Section Driver.

Context (W : World).

Definition is_ImportError (e : exn) : bool :=
  match e with ImportError _ => true | _ => false end.

Definition is_ControllerError (e : exn) : bool :=
  match e with ControllerError => true | _ => false end.

(** [__import__("modules.%s" % name, ...)]. *)
Definition import_ (name : string) : M ProbeModule :=
  match import_module W name with
  | Some m => ret m
  | None => raise (ImportError name)
  end.

(** [controller.new_circuit(path)]: the request goes out; the channel
    acknowledges it or rejects it at once with a ControllerError. *)
Definition new_circuit (path : list fingerprint) : M unit := fun s =>
  let s' := mkState (stats s) (draws s) (S (calls s)) in
  if new_circuit_ok W (calls s) path
  then (Return tt, s', [EvNewCircuit path])
  else (Raise ControllerError, s', [EvNewCircuit path]).

(** [time.sleep(seconds)]: it raises when it refuses the value (a negative
    one, for instance), and returns once the time has passed otherwise. *)
Definition sleep (seconds : pyfloat) : M unit :=
  or_raise (sleep_raises W seconds) ;;
  emit (EvSleep seconds).

(** ** random.shuffle *)

(** [int(random() * n)]: the next draw, an index below [n]. *)
Definition randbelow (n : nat) : M nat := fun s =>
  (Return (random W (draws s) mod n)%nat,
   mkState (stats s) (S (draws s)) (calls s), []).

(** [x[i], x[j] = x[j], x[i]]: both reads, then both writes; an index out
    of range raises. *)
Definition swap {A} (i j : nat) (x : list A) : M (list A) :=
  match x !! j, x !! i with
  | Some xj, Some xi => ret (<[j:=xi]> (<[i:=xj]> x))
  | _, _ => raise IndexError
  end.

(** [for i in reversed(xrange(1, len(x))): j = int(random() * (i+1)); swap]
    from index [i] downwards. *)
Fixpoint shuffle_from {A} (i : nat) (x : list A) : M (list A) :=
  match i with
  | O => ret x
  | S i' =>
      j <- randbelow (i + 1) ;;
      x' <- swap i j x ;;
      shuffle_from i' x'
  end.

Definition shuffle {A} (x : list A) : M (list A) :=
  shuffle_from (length x - 1) x.

(** ** select_exits *)

(** [[(socket.gethostbyname(host), port) for (host, port) in ...]]: hosts
    are resolved in order; the first that does not resolve raises. *)
Fixpoint resolve_hosts (ds : list (string * Z)) : M (list (address * Z)) :=
  match ds with
  | [] => ret []
  | (host, port) :: rest =>
      a <- match gethostbyname W host with
           | Some a => ret a
           | None => raise (gaierror host)
           end ;;
      hs <- resolve_hosts rest ;;
      ret ((a, port) :: hs)
  end.

Definition select_exits (args : Args) (m : ProbeModule) : M (list fingerprint) :=
  let consensus := get_consensus_path W args in
  (if negb (path_exists W consensus)
   then log CRITICAL (MsgNoConsensus consensus) ;; sys_exit 1
   else ret tt) ;;
  hosts <- match destinations m with
           | Some ds => resolve_hosts ds
           | None => ret []
           end ;;
  selected <-
     (if truthy (exit args)
      then
        let exit_relays := [default EmptyString (exit args)] in
        ret (Z.of_nat (length exit_relays), exit_relays)
      else
        ret (get_exits (read_catalog W consensus) (country args) hosts)) ;;
  let '(total, exit_relays) := selected in
  log DEBUG MsgSelected ;;
  log INFO (MsgExitCounts (length exit_relays)
              (if truthy (country args) then country args else None)
              total hosts) ;;
  shuffle exit_relays.

(** ** run_module *)

(** The loop [for exit_relay in exit_relays] of [run_module]. *)
Fixpoint build_loop (args : Args) (exit_relays : list fingerprint) : M unit :=
  match exit_relays with
  | [] => ret tt
  | exit_relay :: rest =>
      try_except (new_circuit ([first_hop args] ++ [exit_relay]))
        is_ControllerError
        (fun err =>
           update_stats (add_failed 1) ;;
           log WARNING (MsgCircuitFailed exit_relay)) ;;
      sleep (build_delay args) ;;
      build_loop args rest
  end.

Definition selection_error_msg (count : Z) : string :=
  ("Exit selection yielded " ++ fmt_d count ++
   " exits but need at least one.")%string.

(** The body of [run_module] once the module is imported. *)
Definition scan (args : Args) (m : ProbeModule) : M unit :=
  exit_relays <- select_exits args m ;;
  let count := Z.of_nat (length exit_relays) in
  update_stats (add_total count) ;;
  (if count <? 1
   then raise (ExitSelectionError (selection_error_msg count))
   else ret tt) ;;
  or_raise (listener_raises W (probe m)) ;;
  emit (EvAddListener (probe m)) ;;
  log DEBUG (MsgDelay (build_delay args) count) ;;
  log DEBUG (MsgTrigger count) ;;
  build_loop args exit_relays ;;
  log DEBUG MsgDone ;;
  update_stats (add_modules_run 1).

(** [run_module(module_name, args, controller, stats)]; the controller is
    the world's and [stats] the state's.  [None] stands for the [return]
    of the except clause. *)
Definition run_module (module_name : string) (args : Args) : M unit :=
  log INFO (MsgRunning module_name) ;;
  r <- try_except (m <- import_ module_name ;; ret (Some m))
         is_ImportError
         (fun err => log ERROR (MsgImportFailed module_name) ;; ret None) ;;
  match r with
  | None => ret tt
  | Some m => scan args m
  end.

(** ** main *)

Definition bootstrap_tor (dir : string) : M unit :=
  log INFO (MsgInvokeTor dir) ;;
  (if tor_starts W
   then ret tt
   else log ERROR MsgTorFailed ;; sys_exit 1) ;;
  log INFO MsgTorStarted.

(** The loop [for module_name in args.module] of [main]. *)
Fixpoint run_modules (names : list string) (args : Args) : M unit :=
  match names with
  | [] => ret tt
  | module_name :: rest =>
      run_module module_name args ;;
      run_modules rest args
  end.

(** [controller.set_conf(key, value)]. *)
Definition set_conf (key value : string) : M unit :=
  or_raise (set_conf_raises W key value) ;;
  emit (EvSetConf key value).

(** [main], for the arguments [parse_cmd_args] returned. *)
Definition main (args : Args) : M Z :=
  update_stats (fun _ => new_Statistics W) ;;
  or_raise (set_level_raises W (upper (verbosity args))) ;;
  log DEBUG MsgArguments ;;
  bootstrap_tor (temp_dir args) ;;
  or_raise (from_port_raises W) ;;
  emit EvConnect ;;
  or_raise (authenticate_raises W) ;;
  log DEBUG MsgRedirect ;;
  set_conf "Log" "err file /dev/null" ;;
  set_conf "FetchServerDescriptors" "0" ;;
  if negb (relay_in_consensus W (first_hop args) (get_consensus_path W args))
  then log ERROR (MsgFirstHopMissing (first_hop args)) ;; ret 1
  else run_modules (module args) args ;; ret 0.

End Driver.

(** * Properties *)

Local Open Scope drv_scope.

(** ** Reading traces *)

(** The circuit-creation requests of a trace, in the order issued. *)
Fixpoint requests (t : list event) : list (list fingerprint) :=
  match t with
  | [] => []
  | EvNewCircuit path :: rest => path :: requests rest
  | _ :: rest => requests rest
  end.

(** The requests and the sleeps of a trace, in order; everything else is
    dropped. *)
Fixpoint pacing (t : list event) : list event :=
  match t with
  | [] => []
  | EvNewCircuit path :: rest => EvNewCircuit path :: pacing rest
  | EvSleep d :: rest => EvSleep d :: pacing rest
  | _ :: rest => pacing rest
  end.

Definition is_sleep (e : event) : bool :=
  match e with EvSleep _ => true | _ => false end.

(** The names of the modules whose run was started, from the
    "Running module" lines of the trace. *)
Fixpoint started (t : list event) : list string :=
  match t with
  | [] => []
  | EvLog INFO (MsgRunning name) :: rest => name :: started rest
  | _ :: rest => started rest
  end.

(** How many of the requests for [exit_relays], sent as the requests
    number [k], [k+1], ... of the run, the controller rejects. *)
Fixpoint rejected (W : World) (fh : fingerprint) (k : nat)
    (exit_relays : list fingerprint) : nat :=
  match exit_relays with
  | [] => O
  | e :: rest =>
      ((if new_circuit_ok W k [fh; e] then 0 else 1) + rejected W fh (S k) rest)%nat
  end.

(** [hosts] is what the destinations of [m] resolve to: one (address,
    port) per declared (host, port), none when nothing is declared. *)
Definition resolves_to (W : World) (m : ProbeModule)
    (hosts : list (address * Z)) : Prop :=
  Forall2 (fun d h => gethostbyname W (fst d) = Some (fst h) /\ snd h = snd d)
          (default [] (destinations m)) hosts.

(** A declared destination whose host does not resolve. *)
Definition unresolved (W : World) (d : string * Z) : Prop :=
  gethostbyname W (fst d) = None.

(** What [main] leaves in the trace before it looks at the first hop. *)
Definition setup_trace (W : World) (args : Args) : list event :=
  [EvStats (new_Statistics W); EvLog DEBUG MsgArguments;
   EvLog INFO (MsgInvokeTor (temp_dir args)); EvLog INFO MsgTorStarted;
   EvConnect; EvLog DEBUG MsgRedirect;
   EvSetConf "Log" "err file /dev/null";
   EvSetConf "FetchServerDescriptors" "0"].

(** The 2-hop path requested for an exit. *)
Definition path_to (args : Args) (exit_relay : fingerprint) : list fingerprint :=
  [first_hop args; exit_relay].

(** The errors section 7 files under configuration errors that can leave
    [run_module]: no qualifying exit, and a destination that does not
    resolve. *)
Definition is_configuration_error (e : exn) : bool :=
  match e with
  | ExitSelectionError _ | gaierror _ => true
  | _ => false
  end.

(** The world [W] with the catalog replaced by [catalog], whatever the
    consensus path. *)
Definition with_catalog (W : World) (catalog : list RelayRecord) : World :=
  mkWorld (get_consensus_path W) (relay_in_consensus W) (path_exists W)
          (fun _ => catalog) (gethostbyname W) (import_module W)
          (random W) (new_circuit_ok W) (tor_starts W) (new_Statistics W)
          (set_level_raises W) (from_port_raises W) (authenticate_raises W)
          (set_conf_raises W) (listener_raises W) (sleep_raises W).

(** Module-level isolation as section 7 words it: when one module's run
    ends in a configuration error, the loop over the requested modules
    goes on with the modules after it, from the state that run left. *)
Definition module_isolation : Prop :=
  forall W args s name rest e s1 t1,
    run_module W name args s = (Raise e, s1, t1) ->
    is_configuration_error e = true ->
    exists o s2 t2,
      run_modules W (name :: rest) args s = (o, s2, t1 ++ t2) /\
      run_modules W rest args s1 = (o, s2, t2).

(** ** A small network to run the driver on *)

Module Ex.

Local Open Scope string_scope.

(** Three relays: R1 exits to ports 80 and 443 of the addresses 0 to 8,
    R2 rejects everything, R3 rejects address 9 and accepts the rest. *)
Definition r1 : RelayRecord :=
  mkRelay "R1" 101 [mkRule true 0 8 80 80; mkRule true 0 8 443 443] "de".
Definition r2 : RelayRecord :=
  mkRelay "R2" 102 [mkRule false 0 4294967295 0 65535] "us".
Definition r3 : RelayRecord :=
  mkRelay "R3" 103 [mkRule false 9 9 0 65535; mkRule true 0 4294967295 0 65535] "DE".

Definition catalog : list RelayRecord := [r1; r2; r3].

(** Four modules: web (example.com:443), smtp9 (a destination no relay
    exits to), dead (a host that does not resolve) and any (no declared
    destination); every other name fails to import. *)
Definition web : ProbeModule := mkProbeModule (Some [("example.com", 443)]) "web.probe".
Definition smtp9 : ProbeModule := mkProbeModule (Some [("blocked.example", 25)]) "smtp9.probe".
Definition dead : ProbeModule := mkProbeModule (Some [("nowhere.invalid", 80)]) "dead.probe".
Definition any : ProbeModule := mkProbeModule None "any.probe".

Definition modules (name : string) : option ProbeModule :=
  if String.eqb name "web" then Some web
  else if String.eqb name "smtp9" then Some smtp9
  else if String.eqb name "dead" then Some dead
  else if String.eqb name "any" then Some any
  else None.

Definition dns (host : string) : option Z :=
  if String.eqb host "example.com" then Some 7
  else if String.eqb host "blocked.example" then Some 9
  else None.

(** The names [logging] knows as levels. *)
Definition levels (name : string) : option exn :=
  if existsb (String.eqb name) ["DEBUG"; "INFO"; "WARNING"; "ERROR"; "CRITICAL"]
  then None else Some (KeyError name).

(** [time.sleep] refuses everything but a finite delay that is not
    negative. *)
Definition sleeps (d : pyfloat) : option exn :=
  match d with
  | Finite q => if Qle_bool 0 q then None else Some (IOError "Invalid argument")
  | _ => Some (IOError "Invalid argument")
  end.

(** The consensus is at "cached-consensus"; the controller rejects every
    second request; connecting and registering listeners succeed. *)
Definition world : World :=
  mkWorld (fun a => consensus a)
          (fun fpr _ => String.eqb fpr "FH")
          (fun p => String.eqb p "cached-consensus")
          (fun _ => catalog)
          dns modules
          (fun k => (7 * k + 3)%nat)
          (fun k _ => Nat.even k)
          true
          (mkStatistics 0 0 0)
          levels None None (fun _ _ => None) (fun _ => None) sleeps.

Definition args_for (cons : string) (e : option string) (names : list string) : Args :=
  mkArgs None e cons (Finite 3) "/tmp/exitmap_tor_datadir" "info" "FH" names.

Definition s0 : state := mkState (mkStatistics 0 0 0) 0 0.

End Ex.

(** How many of the requested modules can be imported. *)
Definition importable (W : World) (names : list string) : nat :=
  length (List.filter
            (fun name => match import_module W name with
                         | Some _ => true
                         | None => false
                         end) names).

(** The world [W] with another resolver. *)
Definition with_resolver (W : World) (resolver : string -> option address) : World :=
  mkWorld (get_consensus_path W) (relay_in_consensus W) (path_exists W)
          (read_catalog W) resolver (import_module W)
          (random W) (new_circuit_ok W) (tor_starts W) (new_Statistics W)
          (set_level_raises W) (from_port_raises W) (authenticate_raises W)
          (set_conf_raises W) (listener_raises W) (sleep_raises W).

(** The controller actions of a trace: connecting and set_conf. *)
Definition is_controller_setup (e : event) : bool :=
  match e with
  | EvConnect | EvSetConf _ _ => true
  | _ => false
  end.

(** Everything [main] does before it looks at the first hop succeeds: the
    log level is known, Tor starts, the controller accepts the connection,
    the authentication and both options. *)
Definition setup_succeeds (W : World) (args : Args) : Prop :=
  set_level_raises W (upper (verbosity args)) = None /\
  tor_starts W = true /\
  from_port_raises W = None /\
  authenticate_raises W = None /\
  set_conf_raises W "Log" "err file /dev/null" = None /\
  set_conf_raises W "FetchServerDescriptors" "0" = None.

(** A module's scan can run to its end: the event handler of the module is
    registered and [time.sleep] accepts the build delay. *)
Definition scan_unhindered (W : World) (args : Args) (m : ProbeModule) : Prop :=
  listener_raises W (probe m) = None /\
  sleep_raises W (build_delay args) = None.

Module Ex2.

Local Open Scope string_scope.

(** The network of [Ex] on a host where Tor does not start. *)
Definition world_without_tor : World :=
  mkWorld (get_consensus_path Ex.world) (relay_in_consensus Ex.world)
          (path_exists Ex.world) (read_catalog Ex.world)
          (gethostbyname Ex.world) (import_module Ex.world)
          (random Ex.world) (new_circuit_ok Ex.world) false
          (new_Statistics Ex.world)
          (set_level_raises Ex.world) (from_port_raises Ex.world)
          (authenticate_raises Ex.world) (set_conf_raises Ex.world)
          (listener_raises Ex.world) (sleep_raises Ex.world).

(** The network of [Ex] with a controller that acknowledges everything. *)
Definition world_all_acked : World :=
  mkWorld (get_consensus_path Ex.world) (relay_in_consensus Ex.world)
          (path_exists Ex.world) (read_catalog Ex.world)
          (gethostbyname Ex.world) (import_module Ex.world)
          (random Ex.world) (fun _ _ => true) true
          (new_Statistics Ex.world)
          (set_level_raises Ex.world) (from_port_raises Ex.world)
          (authenticate_raises Ex.world) (set_conf_raises Ex.world)
          (listener_raises Ex.world) (sleep_raises Ex.world).

(** Arguments naming a first hop the consensus does not list. *)
Definition args_unknown_first_hop (names : list string) : Args :=
  mkArgs None None "cached-consensus" (Finite 3) "/tmp/exitmap_tor_datadir" "info"
         "NOTLISTED" names.

(** A state left by earlier activity, to start runs from. *)
Definition s1 : state := mkState (mkStatistics 10 4 2) 5 7.

(** The arguments of [Ex.args_for] with another build delay. *)
Definition args_with_delay (d : pyfloat) (names : list string) : Args :=
  mkArgs None None "cached-consensus" d "/tmp/exitmap_tor_datadir" "info"
         "FH" names.

(** The arguments of [Ex.args_for] with another verbosity. *)
Definition args_with_verbosity (v : string) (names : list string) : Args :=
  mkArgs None None "cached-consensus" (Finite 3) "/tmp/exitmap_tor_datadir" v
         "FH" names.

(** The network of [Ex] with a controller that refuses event listeners. *)
Definition world_no_listener : World :=
  mkWorld (get_consensus_path Ex.world) (relay_in_consensus Ex.world)
          (path_exists Ex.world) (read_catalog Ex.world)
          (gethostbyname Ex.world) (import_module Ex.world)
          (random Ex.world) (new_circuit_ok Ex.world) true
          (new_Statistics Ex.world)
          (set_level_raises Ex.world) (from_port_raises Ex.world)
          (authenticate_raises Ex.world) (set_conf_raises Ex.world)
          (fun _ => Some (OtherError "add_event_listener"))
          (sleep_raises Ex.world).

End Ex2.

Lemma requests_app t1 t2 : requests (t1 ++ t2) = requests t1 ++ requests t2.
Proof.
  induction t1 as [|e t1 IH]; [reflexivity|].
  destruct e; simpl; rewrite ?IH; reflexivity.
Qed.

Lemma pacing_app t1 t2 : pacing (t1 ++ t2) = pacing t1 ++ pacing t2.
Proof.
  induction t1 as [|e t1 IH]; [reflexivity|].
  destruct e; simpl; rewrite ?IH; reflexivity.
Qed.

Lemma started_app t1 t2 : started (t1 ++ t2) = started t1 ++ started t2.
Proof.
  induction t1 as [|e t1 IH]; [reflexivity|].
  destruct e as [[] []| | | | | |]; simpl; rewrite ?IH; reflexivity.
Qed.

(** ** The monad *)

Lemma bind_Return {A B} (m : M A) (f : A -> M B) s a s1 t1 :
  m s = (Return a, s1, t1) ->
  bind m f s = (let '(o, s2, t2) := f a s1 in (o, s2, t1 ++ t2)).
Proof. intros H. unfold bind. rewrite H. reflexivity. Qed.

Lemma bind_Raise {A B} (m : M A) (f : A -> M B) s e s1 t1 :
  m s = (Raise e, s1, t1) -> bind m f s = (Raise e, s1, t1).
Proof. intros H. unfold bind. rewrite H. reflexivity. Qed.

Lemma bind_SystemExit {A B} (m : M A) (f : A -> M B) s c s1 t1 :
  m s = (SystemExit c, s1, t1) -> bind m f s = (SystemExit c, s1, t1).
Proof. intros H. unfold bind. rewrite H. reflexivity. Qed.

(** ** random.shuffle returns a permutation *)

Lemma insert_head_perm {A} (l : list A) j a b :
  l !! j = Some b -> Permutation (b :: <[j:=a]> l) (a :: l).
Proof.
  revert j. induction l as [|c l IH]; intros [|j] H; simpl in *; try discriminate.
  - injection H as ->. apply perm_swap.
  - etransitivity; [apply perm_swap|].
    etransitivity; [apply perm_skip, IH, H|]. apply perm_swap.
Qed.

Lemma swap_perm {A} (x : list A) i j xi xj :
  x !! i = Some xi -> x !! j = Some xj ->
  Permutation (<[j:=xi]> (<[i:=xj]> x)) x.
Proof.
  revert i j. induction x as [|c x IH]; intros [|i] [|j] Hi Hj;
    simpl in *; try discriminate.
  - injection Hi as ->. injection Hj as ->. reflexivity.
  - injection Hi as ->. apply insert_head_perm, Hj.
  - injection Hj as ->. apply insert_head_perm, Hi.
  - apply perm_skip, IH; assumption.
Qed.

Section ShuffleFacts.

Context (W : World).

Lemma swap_ok {A} (x : list A) i j s :
  (i < length x)%nat -> (j < length x)%nat ->
  exists y, swap i j x s = (Return y, s, []) /\
            Permutation y x /\ length y = length x.
Proof.
  intros Hi Hj. unfold swap.
  destruct (lookup_lt_is_Some_2 x i Hi) as [xi Exi].
  destruct (lookup_lt_is_Some_2 x j Hj) as [xj Exj].
  rewrite Exi, Exj. eexists. split; [reflexivity|]. split.
  - apply swap_perm; assumption.
  - rewrite !length_insert. reflexivity.
Qed.

Lemma shuffle_from_ok {A} i : forall (x : list A) s,
  (i < length x)%nat ->
  exists y, shuffle_from W i x s
            = (Return y, mkState (stats s) (draws s + i) (calls s), []) /\
            Permutation y x.
Proof.
  induction i as [|i IH]; intros x s Hi.
  - exists x. simpl. unfold ret. destruct s as [st d c]; simpl.
    rewrite Nat.add_0_r. split; reflexivity.
  - cbn [shuffle_from].
    assert (Hj : (random W (draws s) mod (S i + 1) < length x)%nat).
    { pose proof (Nat.mod_upper_bound (random W (draws s)) (S i + 1)). lia. }
    set (s1 := mkState (stats s) (S (draws s)) (calls s)).
    destruct (swap_ok x (S i) _ s1 Hi Hj) as (x' & Hsw & Hp & Hl).
    destruct (IH x' s1) as (y & Hy & Hpy); [lia|].
    exists y. split; [|etransitivity; eassumption].
    erewrite bind_Return by reflexivity. fold s1.
    erewrite bind_Return by exact Hsw. rewrite Hy. simpl.
    do 3 f_equal. lia.
Qed.

(** Whatever the generator yields, [random.shuffle] returns, without an
    index error, a permutation of its argument. *)
Lemma shuffle_ok {A} (x : list A) s :
  exists y, shuffle W x s
            = (Return y, mkState (stats s) (draws s + (length x - 1)) (calls s), [])
            /\ Permutation y x.
Proof.
  unfold shuffle. destruct x as [|a x].
  - exists []. simpl. unfold ret. destruct s; simpl. rewrite Nat.add_0_r.
    split; reflexivity.
  - apply shuffle_from_ok. simpl. lia.
Qed.

Lemma shuffle_singleton {A} (a : A) s : shuffle W [a] s = (Return [a], s, []).
Proof. reflexivity. Qed.

End ShuffleFacts.

(** ** select_exits *)

Section SelectFacts.

Context (W : World).

Lemma resolve_hosts_ok ds hosts s :
  Forall2 (fun d h => gethostbyname W (fst d) = Some (fst h) /\ snd h = snd d)
          ds hosts ->
  resolve_hosts W ds s = (Return hosts, s, []).
Proof.
  intros H. induction H as [|[host port] [a p] ds hosts [Ha Hp] _ IH].
  - reflexivity.
  - simpl in Ha, Hp. subst p. cbn [resolve_hosts]. rewrite Ha.
    erewrite bind_Return by reflexivity.
    erewrite bind_Return by exact IH. reflexivity.
Qed.

Lemma resolve_hosts_fail ds s :
  Exists (unresolved W) ds ->
  exists host, In host (map fst ds) /\ gethostbyname W host = None /\
               resolve_hosts W ds s = (Raise (gaierror host), s, []).
Proof.
  induction ds as [|[host port] ds IH]; intros H.
  - inversion H.
  - cbn [resolve_hosts]. destruct (gethostbyname W host) as [a|] eqn:E.
    + assert (H' : Exists (unresolved W) ds).
      { inversion H as [? ? Hd|]; [|assumption].
        unfold unresolved in Hd. simpl in Hd. congruence. }
      destruct (IH H') as (h & Hin & Hn & Hr).
      exists h. split; [right; exact Hin|]. split; [exact Hn|].
      erewrite bind_Return by reflexivity.
      erewrite bind_Raise by exact Hr. reflexivity.
    + exists host. split; [left; reflexivity|]. split; [exact E|]. reflexivity.
Qed.

(** Resolution changes no state and leaves no trace, however it ends. *)
Lemma resolve_hosts_quiet ds s :
  exists o, resolve_hosts W ds s = (o, s, []).
Proof.
  induction ds as [|[host port] ds [o IH]].
  - eexists; reflexivity.
  - cbn [resolve_hosts]. destruct (gethostbyname W host) as [a|].
    + erewrite bind_Return by reflexivity. destruct o as [hs|e|c].
      * erewrite bind_Return by exact IH. eexists; reflexivity.
      * erewrite bind_Raise by exact IH. eexists; reflexivity.
      * erewrite bind_SystemExit by exact IH. eexists; reflexivity.
    + eexists; reflexivity.
Qed.

Lemma select_exits_no_consensus args m s :
  path_exists W (get_consensus_path W args) = false ->
  select_exits W args m s
  = (SystemExit 1, s, [EvLog CRITICAL (MsgNoConsensus (get_consensus_path W args))]).
Proof.
  intros H. unfold select_exits. rewrite H. reflexivity.
Qed.

Lemma select_exits_unresolved args m ds s :
  path_exists W (get_consensus_path W args) = true ->
  destinations m = Some ds ->
  Exists (unresolved W) ds ->
  exists host, In host (map fst ds) /\ gethostbyname W host = None /\
               select_exits W args m s = (Raise (gaierror host), s, []).
Proof.
  intros Hc Hd Hu. destruct (resolve_hosts_fail ds s Hu) as (h & Hin & Hn & Hr).
  exists h. split; [exact Hin|]. split; [exact Hn|].
  unfold select_exits. rewrite Hc, Hd. cbn [negb].
  erewrite bind_Return by reflexivity.
  erewrite bind_Raise by exact Hr. reflexivity.
Qed.

Lemma resolve_module_hosts m hosts s :
  resolves_to W m hosts ->
  match destinations m with
  | Some ds => resolve_hosts W ds
  | None => ret []
  end s = (Return hosts, s, []).
Proof.
  unfold resolves_to. destruct (destinations m) as [ds|]; simpl; intros H.
  - apply resolve_hosts_ok, H.
  - inversion H. reflexivity.
Qed.

Lemma select_exits_single args m hosts fpr s :
  path_exists W (get_consensus_path W args) = true ->
  resolves_to W m hosts ->
  exit args = Some fpr -> truthy (exit args) = true ->
  select_exits W args m s
  = (Return [fpr], s,
     [EvLog DEBUG MsgSelected;
      EvLog INFO (MsgExitCounts 1
                    (if truthy (country args) then country args else None)
                    1 hosts)]).
Proof.
  intros Hc Hr He Ht. unfold select_exits. rewrite Hc, Ht, He. cbn [negb].
  erewrite bind_Return by reflexivity.
  erewrite bind_Return by (apply resolve_module_hosts, Hr).
  reflexivity.
Qed.

Lemma select_exits_filtered args m hosts s :
  path_exists W (get_consensus_path W args) = true ->
  resolves_to W m hosts ->
  truthy (exit args) = false ->
  let q := qualifying_set (read_catalog W (get_consensus_path W args))
             (country args) hosts in
  exists l,
    select_exits W args m s
    = (Return l, mkState (stats s) (draws s + (length q - 1)) (calls s),
       [EvLog DEBUG MsgSelected;
        EvLog INFO (MsgExitCounts (length q)
                      (if truthy (country args) then country args else None)
                      (Z.of_nat (length (read_catalog W (get_consensus_path W args))))
                      hosts)])
    /\ Permutation l q.
Proof.
  intros Hc Hr Ht q.
  destruct (shuffle_ok W q s) as (l & Hs & Hp).
  exists l. split; [|exact Hp].
  unfold select_exits. rewrite Hc, Ht. cbn [negb].
  erewrite bind_Return by reflexivity.
  erewrite bind_Return by (apply resolve_module_hosts, Hr).
  erewrite bind_Return by reflexivity.
  unfold get_exits. fold q.
  erewrite bind_Return by reflexivity.
  erewrite bind_Return by reflexivity.
  rewrite Hs. reflexivity.
Qed.

(** However [select_exits] ends, it has sent no circuit request, has not
    slept, and has left the statistics and the request counter alone. *)
Lemma select_exits_quiet args m s o s1 t1 :
  select_exits W args m s = (o, s1, t1) ->
  requests t1 = [] /\ pacing t1 = [] /\ started t1 = [] /\
  stats s1 = stats s /\ calls s1 = calls s /\
  (forall st, ~ In (EvStats st) t1).
Proof.
  unfold select_exits.
  destruct (path_exists W (get_consensus_path W args)) eqn:Hc; cbn [negb].
  2:{ intros H. injection H as <- <- <-. repeat split; auto.
      intros st [Hin|[]]. discriminate. }
  erewrite bind_Return by reflexivity.
  assert (Hh : exists oh', match destinations m with
                            | Some ds => resolve_hosts W ds
                            | None => ret []
                            end s = (oh', s, [])).
  { destruct (destinations m) as [ds|];
      [apply resolve_hosts_quiet | eexists; reflexivity]. }
  destruct Hh as [oh' Hh].
  destruct oh' as [hosts|e|c].
  2:{ erewrite bind_Raise by exact Hh. intros H. injection H as <- <- <-.
      repeat split; auto. }
  2:{ erewrite bind_SystemExit by exact Hh. intros H. injection H as <- <- <-.
      repeat split; auto. }
  erewrite bind_Return by exact Hh.
  set (sel := if truthy (exit args) then _ else _).
  assert (Hsel : exists total l, sel s = (Return (total, l), s, [])).
  { subst sel. destruct (truthy (exit args)); do 2 eexists; reflexivity. }
  destruct Hsel as (total & l & Hsel).
  erewrite bind_Return by exact Hsel. cbv beta iota.
  erewrite bind_Return by reflexivity.
  erewrite bind_Return by reflexivity.
  destruct (shuffle_ok W l s) as (y & Hy & _). rewrite Hy.
  intros H. injection H as <- <- <-. simpl.
  repeat split; auto.
  intros st [Hin|[Hin|[]]]; discriminate.
Qed.

End SelectFacts.

(** ** The build loop *)

Section LoopFacts.

Context (W : World) (args : Args).

Lemma sleep_returns s :
  sleep_raises W (build_delay args) = None ->
  sleep W (build_delay args) s = (Return tt, s, [EvSleep (build_delay args)]).
Proof. intros H. unfold sleep, bind, or_raise. rewrite H. reflexivity. Qed.

Lemma sleep_refuses s e :
  sleep_raises W (build_delay args) = Some e ->
  sleep W (build_delay args) s = (Raise e, s, []).
Proof. intros H. unfold sleep, bind, or_raise. rewrite H. reflexivity. Qed.

(** One iteration whose request the controller acknowledges. *)
Lemma build_loop_acked e rest s :
  sleep_raises W (build_delay args) = None ->
  new_circuit_ok W (calls s) [first_hop args; e] = true ->
  build_loop W args (e :: rest) s
  = (let '(o, s2, t2) :=
       build_loop W args rest (mkState (stats s) (draws s) (S (calls s))) in
     (o, s2, [EvNewCircuit [first_hop args; e]; EvSleep (build_delay args)] ++ t2)).
Proof.
  intros Hs H. cbn [build_loop].
  change ([first_hop args] ++ [e]) with [first_hop args; e].
  unfold bind, try_except, new_circuit, sleep, or_raise, emit. rewrite H, Hs.
  unfold bind, ret.
  destruct (build_loop W args rest _) as [[o s2] t2]. reflexivity.
Qed.

(** One iteration whose request the controller rejects at once. *)
Lemma build_loop_rejected e rest s :
  sleep_raises W (build_delay args) = None ->
  new_circuit_ok W (calls s) [first_hop args; e] = false ->
  build_loop W args (e :: rest) s
  = (let '(o, s2, t2) :=
       build_loop W args rest
         (mkState (add_failed 1 (stats s)) (draws s) (S (calls s))) in
     (o, s2, [EvNewCircuit [first_hop args; e];
              EvStats (add_failed 1 (stats s));
              EvLog WARNING (MsgCircuitFailed e);
              EvSleep (build_delay args)] ++ t2)).
Proof.
  intros Hs H. cbn [build_loop].
  change ([first_hop args] ++ [e]) with [first_hop args; e].
  unfold bind, try_except, new_circuit, sleep, or_raise, update_stats, log, emit.
  rewrite H, Hs. cbn [is_ControllerError stats draws calls]. unfold bind, ret.
  destruct (build_loop W args rest _) as [[o s2] t2]. reflexivity.
Qed.

(** One iteration whose sleep is refused: the request has gone out, a
    rejection has been counted, and the error of the sleep leaves the loop
    with the remaining exits not requested. *)
Lemma build_loop_sleep_refused e rest s err :
  sleep_raises W (build_delay args) = Some err ->
  build_loop W args (e :: rest) s
  = (Raise err,
     mkState (if new_circuit_ok W (calls s) [first_hop args; e]
              then stats s else add_failed 1 (stats s))
             (draws s) (S (calls s)),
     EvNewCircuit [first_hop args; e] ::
     (if new_circuit_ok W (calls s) [first_hop args; e]
      then []
      else [EvStats (add_failed 1 (stats s));
            EvLog WARNING (MsgCircuitFailed e)])).
Proof.
  intros Hs. cbn [build_loop].
  change ([first_hop args] ++ [e]) with [first_hop args; e].
  unfold bind, try_except, new_circuit, sleep, or_raise, update_stats, log, emit.
  rewrite Hs. unfold bind, raise.
  destruct (new_circuit_ok W (calls s) [first_hop args; e]); reflexivity.
Qed.

(** The whole loop when the sleeps are accepted: it runs to its end, sends
    one request per exit in the order of the list, sleeps after each, and
    adds to [failed_circuits] the number of rejected requests, leaving the
    other counters alone. *)
Lemma build_loop_spec exit_relays :
  sleep_raises W (build_delay args) = None ->
  forall s,
  exists s' t,
    build_loop W args exit_relays s = (Return tt, s', t) /\
    requests t = map (path_to args) exit_relays /\
    pacing t = flat_map (fun e => [EvNewCircuit (path_to args e); EvSleep (build_delay args)])
                 exit_relays /\
    started t = [] /\
    total_circuits (stats s') = total_circuits (stats s) /\
    failed_circuits (stats s')
    = failed_circuits (stats s)
      + Z.of_nat (rejected W (first_hop args) (calls s) exit_relays) /\
    modules_run (stats s') = modules_run (stats s) /\
    Forall (fun ev => forall st, ev = EvStats st ->
                        total_circuits st = total_circuits (stats s)) t.
Proof.
  intros Hsl. induction exit_relays as [|e rest IH]; intros s.
  - exists s, []. simpl. repeat split; auto. lia.
  - destruct (new_circuit_ok W (calls s) [first_hop args; e]) eqn:E.
    + rewrite (build_loop_acked e rest s Hsl E).
      destruct (IH (mkState (stats s) (draws s) (S (calls s))))
        as (s' & t & Hb & Hr & Hp & Hst & Ht & Hf & Hm & Hall).
      rewrite Hb. do 2 eexists. split; [reflexivity|].
      cbn [rejected]. rewrite E. simpl in *.
      rewrite Hr, Hp, Hst, Ht, Hf, Hm. repeat split; auto.
      repeat (constructor; [intros st; discriminate|]). exact Hall.
    + rewrite (build_loop_rejected e rest s Hsl E).
      destruct (IH (mkState (add_failed 1 (stats s)) (draws s) (S (calls s))))
        as (s' & t & Hb & Hr & Hp & Hst & Ht & Hf & Hm & Hall).
      rewrite Hb. do 2 eexists. split; [reflexivity|].
      cbn [rejected]. rewrite E. simpl in *.
      rewrite Hr, Hp, Hst, Ht, Hf, Hm. repeat split; auto; [lia|].
      constructor; [intros st; discriminate|].
      constructor; [intros st [= <-]; reflexivity|].
      repeat (constructor; [intros st; discriminate|]). exact Hall.
Qed.

Lemma rejected_at_most exit_relays : forall k,
  (rejected W (first_hop args) k exit_relays <= length exit_relays)%nat.
Proof.
  induction exit_relays as [|e rest IH]; intros k; simpl; [lia|].
  specialize (IH (S k)). destruct (new_circuit_ok W k [first_hop args; e]); lia.
Qed.

(** The loop however it ends: only the error of a refused sleep can
    leave it, after at most one request per exit; the rejections counted
    are no more than the requests sent; the other counters are untouched. *)
Lemma build_loop_any exit_relays s :
  exists o s' t,
    build_loop W args exit_relays s = (o, s', t) /\
    (length (requests t) <= length exit_relays)%nat /\
    started t = [] /\
    total_circuits (stats s') = total_circuits (stats s) /\
    failed_circuits (stats s) <= failed_circuits (stats s')
      <= failed_circuits (stats s) + Z.of_nat (length (requests t)) /\
    modules_run (stats s') = modules_run (stats s) /\
    Forall (fun ev => forall st, ev = EvStats st ->
                        total_circuits st = total_circuits (stats s)) t /\
    match o with
    | Return _ => requests t = map (path_to args) exit_relays
    | Raise e => sleep_raises W (build_delay args) = Some e
    | SystemExit _ => False
    end.
Proof.
  destruct (sleep_raises W (build_delay args)) as [err|] eqn:Hsl.
  - destruct exit_relays as [|e rest].
    + exists (Return tt), s, []. simpl. repeat split; auto; lia.
    + rewrite (build_loop_sleep_refused e rest s err Hsl).
      do 3 eexists. split; [reflexivity|].
      destruct (new_circuit_ok W (calls s) [first_hop args; e]);
        cbn [stats requests started length app total_circuits failed_circuits
             modules_run add_failed].
      * repeat split; auto; try lia.
        repeat (constructor; [intros st; discriminate|]). constructor.
      * repeat split; auto; try lia.
        constructor; [intros st; discriminate|].
        constructor; [intros st [= <-]; reflexivity|].
        repeat (constructor; [intros st; discriminate|]). constructor.
  - destruct (build_loop_spec exit_relays Hsl s)
      as (s' & t & Hb & Hr & _ & Hst & Ht & Hf & Hm & Hall).
    exists (Return tt), s', t. split; [exact Hb|].
    pose proof (rejected_at_most exit_relays (calls s)) as Hrej.
    rewrite Hr, length_map. repeat split; auto; lia.
Qed.

End LoopFacts.

(** ** run_module, the module loop and main *)

Section RunFacts.

Context (W : World) (args : Args).

Lemma scan_empty m s s1 t1 :
  select_exits W args m s = (Return [], s1, t1) ->
  scan W args m s
  = (Raise (ExitSelectionError
              "Exit selection yielded 0 exits but need at least one."),
     mkState (add_total 0 (stats s1)) (draws s1) (calls s1),
     t1 ++ [EvStats (add_total 0 (stats s1))]).
Proof.
  intros H. unfold scan. erewrite bind_Return by exact H.
  reflexivity.
Qed.

Lemma scan_nonempty m s l s1 t1 s2 tl :
  select_exits W args m s = (Return l, s1, t1) ->
  l <> [] ->
  listener_raises W (probe m) = None ->
  build_loop W args l
    (mkState (add_total (Z.of_nat (length l)) (stats s1)) (draws s1) (calls s1))
  = (Return tt, s2, tl) ->
  scan W args m s
  = (Return tt,
     mkState (add_modules_run 1 (stats s2)) (draws s2) (calls s2),
     t1 ++ [EvStats (add_total (Z.of_nat (length l)) (stats s1));
            EvAddListener (probe m);
            EvLog DEBUG (MsgDelay (build_delay args) (Z.of_nat (length l)));
            EvLog DEBUG (MsgTrigger (Z.of_nat (length l)))]
        ++ tl
        ++ [EvLog DEBUG MsgDone; EvStats (add_modules_run 1 (stats s2))]).
Proof.
  intros H Hne Hl Hb. unfold scan. erewrite bind_Return by exact H.
  assert (Hc : (Z.of_nat (length l) <? 1) = false).
  { apply Z.ltb_ge. destruct l; [congruence|]. simpl length. lia. }
  unfold bind, update_stats, emit, log, or_raise. cbn [stats draws calls].
  rewrite Hc, Hl. unfold ret, emit. rewrite Hb. cbn [stats draws calls].
  simpl. rewrite ?app_nil_r. reflexivity.
Qed.

(** The loop is left by an error: the error leaves the scan, and the
    module is not counted as run. *)
Lemma scan_loop_raises m s l s1 t1 e s2 tl :
  select_exits W args m s = (Return l, s1, t1) ->
  l <> [] ->
  listener_raises W (probe m) = None ->
  build_loop W args l
    (mkState (add_total (Z.of_nat (length l)) (stats s1)) (draws s1) (calls s1))
  = (Raise e, s2, tl) ->
  scan W args m s
  = (Raise e, s2,
     t1 ++ [EvStats (add_total (Z.of_nat (length l)) (stats s1));
            EvAddListener (probe m);
            EvLog DEBUG (MsgDelay (build_delay args) (Z.of_nat (length l)));
            EvLog DEBUG (MsgTrigger (Z.of_nat (length l)))]
        ++ tl).
Proof.
  intros H Hne Hl Hb. unfold scan. erewrite bind_Return by exact H.
  assert (Hc : (Z.of_nat (length l) <? 1) = false).
  { apply Z.ltb_ge. destruct l; [congruence|]. simpl length. lia. }
  unfold bind, update_stats, emit, log, or_raise. cbn [stats draws calls].
  rewrite Hc, Hl. unfold ret, emit. rewrite Hb. reflexivity.
Qed.

(** The event handler cannot be registered: the error leaves the scan
    after [total_circuits] was written and before any request. *)
Lemma scan_listener_refused m s l s1 t1 e :
  select_exits W args m s = (Return l, s1, t1) ->
  l <> [] ->
  listener_raises W (probe m) = Some e ->
  scan W args m s
  = (Raise e,
     mkState (add_total (Z.of_nat (length l)) (stats s1)) (draws s1) (calls s1),
     t1 ++ [EvStats (add_total (Z.of_nat (length l)) (stats s1))]).
Proof.
  intros H Hne Hl. unfold scan. erewrite bind_Return by exact H.
  assert (Hc : (Z.of_nat (length l) <? 1) = false).
  { apply Z.ltb_ge. destruct l; [congruence|]. simpl length. lia. }
  unfold bind, update_stats, emit, log, or_raise. cbn [stats draws calls].
  rewrite Hc, Hl. reflexivity.
Qed.

(** A scan over a non-empty selection, however it ends: after the
    selection's trace comes the write of [total_circuits], and then what
    the listener and the loop leave. *)
Lemma scan_selected m s l s1 t1 :
  select_exits W args m s = (Return l, s1, t1) ->
  l <> [] ->
  exists o s' post,
    scan W args m s
    = (o, s', t1 ++ EvStats (add_total (Z.of_nat (length l)) (stats s1)) :: post) /\
    (length (requests post) <= length l)%nat /\
    started post = [] /\
    total_circuits (stats s') = total_circuits (stats s1) + Z.of_nat (length l) /\
    failed_circuits (stats s1) <= failed_circuits (stats s')
      <= failed_circuits (stats s1) + Z.of_nat (length (requests post)) /\
    modules_run (stats s')
    = modules_run (stats s1) + match o with Return _ => 1 | _ => 0 end /\
    Forall (fun ev => forall st, ev = EvStats st ->
              total_circuits st
              = total_circuits (stats s1) + Z.of_nat (length l)) post /\
    match o with
    | Return _ => requests post = map (path_to args) l
    | Raise e => listener_raises W (probe m) = Some e \/
                 sleep_raises W (build_delay args) = Some e
    | SystemExit _ => False
    end.
Proof.
  intros H Hne.
  destruct (listener_raises W (probe m)) as [e|] eqn:Hl.
  - rewrite (scan_listener_refused m s l s1 t1 e H Hne Hl).
    exists (Raise e). do 2 eexists. split; [reflexivity|].
    cbn [stats add_total total_circuits failed_circuits modules_run
         requests started length].
    repeat split; auto; try lia.
  - destruct (build_loop_any W args l
                (mkState (add_total (Z.of_nat (length l)) (stats s1))
                         (draws s1) (calls s1)))
      as (o & s2 & tl & Hb & Hn & Hst & Ht & Hf & Hm & Hall & Ho).
    cbn [stats add_total total_circuits failed_circuits modules_run] in *.
    destruct o as [[]|e|c]; [| |contradiction].
    + rewrite (scan_nonempty m s l s1 t1 s2 tl H Hne Hl Hb).
      exists (Return tt). do 2 eexists. split; [reflexivity|].
      cbn [stats add_modules_run total_circuits failed_circuits modules_run
           requests started].
      rewrite !requests_app, !started_app, Hst. cbn [requests started app].
      rewrite app_nil_r, Ho, length_map. rewrite Ho, length_map in Hf.
      repeat split; auto; try lia.
      repeat (constructor; [intros st; discriminate|]).
      apply Forall_app. split; [exact Hall|].
      constructor; [intros st; discriminate|].
      constructor; [|constructor]. intros st [= <-]. simpl. exact Ht.
    + rewrite (scan_loop_raises m s l s1 t1 e s2 tl H Hne Hl Hb).
      exists (Raise e). do 2 eexists. split; [reflexivity|].
      cbn [requests started]. rewrite Hst.
      repeat split; auto; try lia.
      repeat (constructor; [intros st; discriminate|]). exact Hall.
Qed.

Lemma run_module_import_failed name s :
  import_module W name = None ->
  run_module W name args s
  = (Return tt, s, [EvLog INFO (MsgRunning name); EvLog ERROR (MsgImportFailed name)]).
Proof.
  intros H. unfold run_module, bind, try_except, import_, log, emit.
  rewrite H. reflexivity.
Qed.

Lemma run_module_imported name m s :
  import_module W name = Some m ->
  run_module W name args s
  = (let '(o, s', t) := scan W args m s in
     (o, s', EvLog INFO (MsgRunning name) :: t)).
Proof.
  intros H. unfold run_module, bind, try_except, import_, log, emit.
  rewrite H. cbn. destruct (scan W args m s) as [[o s'] t]. reflexivity.
Qed.

Lemma run_modules_cons name rest s :
  run_modules W (name :: rest) args s
  = match run_module W name args s with
    | (Return _, s1, t1) =>
        let '(o, s2, t2) := run_modules W rest args s1 in (o, s2, t1 ++ t2)
    | (Raise e, s1, t1) => (Raise e, s1, t1)
    | (SystemExit c, s1, t1) => (SystemExit c, s1, t1)
    end.
Proof. reflexivity. Qed.

(** An exception leaving one module's run leaves the loop at once. *)
Lemma run_modules_raise pre name post e : forall s s1 t1 s2 t2,
  run_modules W pre args s = (Return tt, s1, t1) ->
  run_module W name args s1 = (Raise e, s2, t2) ->
  run_modules W (pre ++ name :: post) args s = (Raise e, s2, t1 ++ t2).
Proof.
  induction pre as [|p pre IH]; intros s s1 t1 s2 t2 Hpre Hrun.
  - injection Hpre as <- <-. simpl app. rewrite run_modules_cons, Hrun.
    reflexivity.
  - simpl app. rewrite run_modules_cons in Hpre |- *.
    destruct (run_module W p args s) as [[[[]|e'|c] sp] tp]; try discriminate.
    destruct (run_modules W pre args sp) as [[o sq] tq] eqn:Hq.
    injection Hpre as -> -> <-.
    rewrite (IH sp s1 tq s2 t2 Hq Hrun). rewrite app_assoc. reflexivity.
Qed.

Lemma main_runs s :
  setup_succeeds W args ->
  relay_in_consensus W (first_hop args) (get_consensus_path W args) = true ->
  main W args s
  = (let '(o, s', t) :=
       run_modules W (module args) args
         (mkState (new_Statistics W) (draws s) (calls s)) in
     (match o with
      | Return _ => Return 0
      | Raise e => Raise e
      | SystemExit c => SystemExit c
      end, s', setup_trace W args ++ t)).
Proof.
  intros (Hl & Ht & Hp & Ha & Hc1 & Hc2) Hf. unfold main, bootstrap_tor, set_conf.
  unfold bind, update_stats, log, emit, or_raise.
  rewrite Hl, Ht, Hp, Ha, Hc1, Hc2, Hf.
  cbn [stats draws calls negb ret].
  destruct (run_modules W (module args) args _) as [[[[]|e|c] s'] t];
    cbn; rewrite ?app_nil_r; reflexivity.
Qed.

End RunFacts.

(** ** A module's run over a non-empty selection *)

(** The trace of a run whose selection is [l], non-empty: the selection's
    trace, the write of [total_circuits], the listener, two log lines, the
    loop's trace [tl] and the closing write of [modules_run]. *)
Lemma run_module_nonempty W args name m s l s1 t1 :
  import_module W name = Some m ->
  select_exits W args m s = (Return l, s1, t1) ->
  l <> [] ->
  scan_unhindered W args m ->
  exists s' tl,
    run_module W name args s
    = (Return tt, s',
       EvLog INFO (MsgRunning name) ::
       t1 ++ [EvStats (add_total (Z.of_nat (length l)) (stats s));
              EvAddListener (probe m);
              EvLog DEBUG (MsgDelay (build_delay args) (Z.of_nat (length l)));
              EvLog DEBUG (MsgTrigger (Z.of_nat (length l)))]
          ++ tl ++ [EvLog DEBUG MsgDone; EvStats (stats s')]) /\
    requests tl = map (path_to args) l /\
    pacing tl = flat_map (fun e => [EvNewCircuit (path_to args e);
                                    EvSleep (build_delay args)]) l /\
    total_circuits (stats s') = total_circuits (stats s) + Z.of_nat (length l) /\
    failed_circuits (stats s')
    = failed_circuits (stats s)
      + Z.of_nat (rejected W (first_hop args) (calls s) l) /\
    modules_run (stats s') = modules_run (stats s) + 1 /\
    Forall (fun ev => forall st, ev = EvStats st ->
              total_circuits st = total_circuits (stats s) + Z.of_nat (length l)) tl.
Proof.
  intros Hi Hs Hne [Hli Hsl].
  destruct (select_exits_quiet W args m s _ _ _ Hs)
    as (_ & _ & _ & Hst & Hca & _).
  destruct (build_loop_spec W args l Hsl
              (mkState (add_total (Z.of_nat (length l)) (stats s1))
                       (draws s1) (calls s1)))
    as (s2 & tl & Hb & Hr & Hp & _ & Ht & Hf & Hm & Hall).
  cbn [stats calls add_total total_circuits failed_circuits modules_run] in *.
  exists (mkState (add_modules_run 1 (stats s2)) (draws s2) (calls s2)), tl.
  rewrite (run_module_imported W args name m s Hi).
  rewrite (scan_nonempty W args m s l s1 t1 s2 tl Hs Hne Hli Hb).
  rewrite Hst, Hca in *. cbn [stats add_modules_run total_circuits
                               failed_circuits modules_run].
  repeat split; auto.
  rewrite Hm. reflexivity.
Qed.

(** A run over a non-empty selection, however it ends. *)
Lemma run_module_selected W args name m s l s1 t1 :
  import_module W name = Some m ->
  select_exits W args m s = (Return l, s1, t1) ->
  l <> [] ->
  exists o s' post,
    run_module W name args s
    = (o, s',
       (EvLog INFO (MsgRunning name) :: t1)
       ++ EvStats (add_total (Z.of_nat (length l)) (stats s)) :: post) /\
    (length (requests post) <= length l)%nat /\
    started post = [] /\
    total_circuits (stats s') = total_circuits (stats s) + Z.of_nat (length l) /\
    failed_circuits (stats s) <= failed_circuits (stats s')
      <= failed_circuits (stats s) + Z.of_nat (length (requests post)) /\
    modules_run (stats s')
    = modules_run (stats s) + match o with Return _ => 1 | _ => 0 end /\
    Forall (fun ev => forall st, ev = EvStats st ->
              total_circuits st
              = total_circuits (stats s) + Z.of_nat (length l)) post /\
    match o with
    | Return _ => requests post = map (path_to args) l
    | Raise e => listener_raises W (probe m) = Some e \/
                 sleep_raises W (build_delay args) = Some e
    | SystemExit _ => False
    end.
Proof.
  intros Hi Hs Hne.
  destruct (select_exits_quiet W args m s _ _ _ Hs)
    as (_ & _ & _ & Hst & _ & _).
  destruct (scan_selected W args m s l s1 t1 Hs Hne)
    as (o & s' & post & Hsc & Hrest).
  rewrite Hst in Hsc, Hrest.
  exists o, s', post. split; [|exact Hrest].
  rewrite (run_module_imported W args name m s Hi), Hsc. reflexivity.
Qed.

Lemma requests_select_prefix W args m s o s1 t1 t :
  select_exits W args m s = (o, s1, t1) ->
  requests (t1 ++ t) = requests t /\ pacing (t1 ++ t) = pacing t.
Proof.
  intros H. destruct (select_exits_quiet W args m s _ _ _ H) as (Hr & Hp & _).
  rewrite requests_app, pacing_app, Hr, Hp. split; reflexivity.
Qed.

Lemma run_prefix_quiet W args m s o s1 t1 name t :
  select_exits W args m s = (o, s1, t1) ->
  requests (EvLog INFO (MsgRunning name) :: t1 ++ t) = requests t /\
  pacing (EvLog INFO (MsgRunning name) :: t1 ++ t) = pacing t.
Proof. intros H. simpl. apply (requests_select_prefix W args m s o s1 t1 t H). Qed.

Lemma filter_sleep_pacing t :
  List.filter is_sleep (pacing t) = List.filter is_sleep t.
Proof.
  induction t as [|e t IH]; [reflexivity|].
  destruct e; simpl; rewrite ?IH; reflexivity.
Qed.

Lemma pacing_of_loop_sleeps args (l : list fingerprint) :
  length (List.filter is_sleep
            (flat_map (fun e => [EvNewCircuit (path_to args e);
                                 EvSleep (build_delay args)]) l))
  = length l.
Proof.
  induction l as [|e l IH]; [reflexivity|]. simpl. rewrite IH. reflexivity.
Qed.

Lemma pacing_of_loop_last args (l : list fingerprint) :
  l <> [] ->
  last (flat_map (fun e => [EvNewCircuit (path_to args e);
                            EvSleep (build_delay args)]) l)
  = Some (EvSleep (build_delay args)).
Proof.
  induction l as [|e l IH]; [congruence|]. intros _.
  destruct l as [|e' l]; [reflexivity|].
  cbn [flat_map app]. cbn [flat_map app] in IH.
  rewrite <- IH by discriminate. reflexivity.
Qed.

(** ** The qualifying set, relay by relay *)

Lemma count_occ_qualifying catalog cc hosts fpr :
  count_occ string_dec (qualifying_set catalog cc hosts) fpr
  = length (List.filter
              (fun r => qualifies cc hosts r && String.eqb (relay_fingerprint r) fpr)
              catalog).
Proof.
  unfold qualifying_set. induction catalog as [|r catalog IH]; [reflexivity|].
  simpl. destruct (qualifies cc hosts r); simpl; [|exact IH].
  destruct (string_dec (relay_fingerprint r) fpr) as [E|E].
  - apply String.eqb_eq in E as E'. rewrite E'. simpl. f_equal. exact IH.
  - apply String.eqb_neq in E as E'. rewrite E'. exact IH.
Qed.

Lemma NoDup_qualifying catalog cc hosts :
  NoDup (map relay_fingerprint catalog) ->
  NoDup (qualifying_set catalog cc hosts).
Proof.
  unfold qualifying_set. induction catalog as [|r catalog IH]; simpl; intros H.
  - constructor.
  - apply NoDup_cons in H as [Hn Hd].
    destruct (qualifies cc hosts r); [|apply IH, Hd].
    simpl. apply NoDup_cons. split; [|apply IH, Hd].
    intros Hin. apply Hn. apply list_elem_of_In in Hin. apply list_elem_of_In.
    apply in_map_iff in Hin as (r' & E & Hr').
    apply in_map_iff. exists r'. split; [exact E|].
    apply filter_In in Hr'. tauto.
Qed.

(** * The properties of the design document *)

(** ** Exit selection *)

(** C2.  Without a single-fingerprint override, when the consensus exists
    and the declared hosts resolve to [hosts], [select_exits] returns a
    list that is a permutation of the qualifying set of the catalog: every
    fingerprint occurs in it exactly as often as there are qualifying relay
    records carrying it, so none is left out or added, and with distinct
    fingerprints in the catalog the list has no duplicate.  This holds
    whatever the random generator yields. *)
Theorem select_exits_permutes_qualifying_set W args m hosts s :
  truthy (exit args) = false ->
  path_exists W (get_consensus_path W args) = true ->
  resolves_to W m hosts ->
  exists l s' t,
    select_exits W args m s = (Return l, s', t) /\
    Permutation l (qualifying_set (read_catalog W (get_consensus_path W args))
                     (country args) hosts) /\
    (forall fpr,
        count_occ string_dec l fpr
        = length (List.filter
                    (fun r => qualifies (country args) hosts r
                              && String.eqb (relay_fingerprint r) fpr)
                    (read_catalog W (get_consensus_path W args)))) /\
    (NoDup (map relay_fingerprint (read_catalog W (get_consensus_path W args))) ->
     NoDup l).
Proof.
  intros Ht Hc Hr.
  destruct (select_exits_filtered W args m hosts s Hc Hr Ht) as (l & Hs & Hp).
  exists l. do 2 eexists. split; [exact Hs|]. split; [exact Hp|]. split.
  - intros fpr. rewrite <- count_occ_qualifying.
    apply (Permutation_count_occ string_dec), Hp.
  - intros Hn. rewrite Hp. apply NoDup_qualifying, Hn.
Qed.

Lemma select_exits_permutes_qualifying_set_witness :
  truthy (exit (Ex.args_for "cached-consensus" None [])) = false /\
  path_exists Ex.world "cached-consensus" = true /\
  resolves_to Ex.world Ex.web [(7, 443)] /\
  exists l s' t,
    select_exits Ex.world (Ex.args_for "cached-consensus" None []) Ex.web Ex.s0
    = (Return l, s', t) /\
    Permutation l ["R1"; "R3"]%string.
Proof.
  assert (Hr : resolves_to Ex.world Ex.web [(7, 443)]).
  { repeat constructor. }
  split; [reflexivity|]. split; [reflexivity|]. split; [exact Hr|].
  destruct (select_exits_permutes_qualifying_set Ex.world
              (Ex.args_for "cached-consensus" None []) Ex.web [(7, 443)] Ex.s0
              eq_refl eq_refl Hr) as (l & s' & t & H & Hp & _).
  exists l, s', t. split; [exact H|exact Hp].
Defined.

(** C6, as amended.  With a non-empty fingerprint given by [-e], an
    existing consensus and destinations that resolve, [select_exits]
    returns exactly the one-element list of that fingerprint, with the
    process state untouched; the catalog plays no part, so the answer is
    the same whatever policy the catalog records for that relay. *)
Theorem single_exit_overrides_policy W args m hosts fpr s catalog :
  exit args = Some fpr ->
  truthy (exit args) = true ->
  path_exists W (get_consensus_path W args) = true ->
  resolves_to W m hosts ->
  exists t,
    select_exits (with_catalog W catalog) args m s = (Return [fpr], s, t).
Proof.
  intros He Ht Hc Hr. eexists.
  apply (select_exits_single (with_catalog W catalog) args m hosts fpr s);
    assumption.
Qed.

Lemma single_exit_overrides_policy_witness :
  exit (Ex.args_for "cached-consensus" (Some "R2"%string) []) = Some "R2"%string /\
  forallb (fun d => negb (can_exit_to (exit_policy Ex.r2) d)) [(7, 443)] = true /\
  exists t,
    select_exits (with_catalog Ex.world [Ex.r2])
      (Ex.args_for "cached-consensus" (Some "R2"%string) []) Ex.web Ex.s0
    = (Return ["R2"%string], Ex.s0, t).
Proof.
  split; [reflexivity|]. split; [reflexivity|].
  apply (single_exit_overrides_policy Ex.world
           (Ex.args_for "cached-consensus" (Some "R2"%string) [])
           Ex.web [(7, 443)] "R2"%string Ex.s0 [Ex.r2]);
    [reflexivity|reflexivity|reflexivity|repeat constructor].
Defined.

(** C6 as stated fails: with [-e R2] given, a module whose host does not
    resolve makes [select_exits] raise, a missing consensus makes it end
    the process, and an empty fingerprint is treated as no override at
    all; in none of the three runs is the one-element list returned. *)
Lemma single_exit_counterexample :
  select_exits Ex.world (Ex.args_for "cached-consensus" (Some "R2"%string) [])
    Ex.dead Ex.s0
  = (Raise (gaierror "nowhere.invalid"), Ex.s0, []) /\
  select_exits Ex.world (Ex.args_for "gone" (Some "R2"%string) []) Ex.web Ex.s0
  = (SystemExit 1, Ex.s0, [EvLog CRITICAL (MsgNoConsensus "gone")]) /\
  (exists s t,
     select_exits Ex.world (Ex.args_for "cached-consensus" (Some ""%string) [])
       Ex.web Ex.s0
     = (Return ["R1"; "R3"]%string, s, t)).
Proof.
  split; [reflexivity|]. split; [reflexivity|].
  do 2 eexists. reflexivity.
Qed.

(** C9.  With an override given, [select_exits] still ends the process
    with status 1 when the consensus is missing (and so do [run_module]
    and, once its setup has succeeded, [main] for that module), and still
    raises on the first destination host that does not resolve, before the
    override is looked at. *)
Theorem override_keeps_consensus_and_resolution_checks W args m s :
  truthy (exit args) = true ->
  (path_exists W (get_consensus_path W args) = false ->
   select_exits W args m s
   = (SystemExit 1, s,
      [EvLog CRITICAL (MsgNoConsensus (get_consensus_path W args))]) /\
   (forall name,
       import_module W name = Some m ->
       (exists t, run_module W name args s = (SystemExit 1, s, t)) /\
       (forall rest s0,
           setup_succeeds W args ->
           relay_in_consensus W (first_hop args) (get_consensus_path W args) = true ->
           module args = name :: rest ->
           exists s' t, main W args s0 = (SystemExit 1, s', t)))) /\
  (path_exists W (get_consensus_path W args) = true ->
   forall ds,
     destinations m = Some ds ->
     Exists (unresolved W) ds ->
     exists host,
       In host (map fst ds) /\ gethostbyname W host = None /\
       select_exits W args m s = (Raise (gaierror host), s, [])).
Proof.
  intros _. split.
  - intros Hc. split; [apply select_exits_no_consensus, Hc|].
    intros name Hi. split.
    + rewrite (run_module_imported W args name m s Hi). unfold scan.
      erewrite bind_SystemExit by (apply select_exits_no_consensus, Hc).
      eexists; reflexivity.
    + intros rest s0 Ht Hf Hm. rewrite (main_runs W args s0 Ht Hf), Hm.
      rewrite run_modules_cons, (run_module_imported W args name m _ Hi).
      unfold scan.
      erewrite bind_SystemExit by (apply select_exits_no_consensus, Hc).
      do 2 eexists; reflexivity.
  - intros Hc ds Hd Hu. apply (select_exits_unresolved W args m ds s Hc Hd Hu).
Qed.

Lemma override_keeps_consensus_and_resolution_checks_witness :
  truthy (exit (Ex.args_for "gone" (Some "R2"%string) ["web"%string])) = true /\
  path_exists Ex.world "gone" = false /\
  select_exits Ex.world (Ex.args_for "gone" (Some "R2"%string) ["web"%string])
    Ex.web Ex.s0
  = (SystemExit 1, Ex.s0, [EvLog CRITICAL (MsgNoConsensus "gone")]) /\
  exists host,
    In host ["nowhere.invalid"%string] /\
    select_exits Ex.world (Ex.args_for "cached-consensus" (Some "R2"%string) [])
      Ex.dead Ex.s0
    = (Raise (gaierror host), Ex.s0, []).
Proof.
  split; [reflexivity|]. split; [reflexivity|]. split.
  - apply (proj1 (override_keeps_consensus_and_resolution_checks Ex.world
                    (Ex.args_for "gone" (Some "R2"%string) ["web"%string])
                    Ex.web Ex.s0 eq_refl) eq_refl).
  - destruct (proj2 (override_keeps_consensus_and_resolution_checks Ex.world
                       (Ex.args_for "cached-consensus" (Some "R2"%string) [])
                       Ex.dead Ex.s0 eq_refl) eq_refl
                    [("nowhere.invalid"%string, 80)] eq_refl)
      as (host & Hin & _ & H).
    + constructor. reflexivity.
    + exists host. split; [exact Hin|exact H].
Defined.

(** ** The build loop *)

(** C3, as amended.  When [time.sleep] accepts the build delay, the build
    loop over the selected exits [l] returns normally and has issued
    exactly one circuit request per exit, in the order of [l], each for
    the path of the first hop followed by that exit. *)
Theorem build_loop_requests_each_exit_in_order W args l s :
  sleep_raises W (build_delay args) = None ->
  l <> [] ->
  exists s' t,
    build_loop W args l s = (Return tt, s', t) /\
    requests t = map (fun exit_relay => [first_hop args; exit_relay]) l /\
    length (requests t) = length l.
Proof.
  intros Hsl _.
  destruct (build_loop_spec W args l Hsl s) as (s' & t & Hb & Hr & _).
  exists s', t. split; [exact Hb|]. rewrite Hr.
  split; [reflexivity|]. apply length_map.
Qed.

Lemma build_loop_requests_each_exit_in_order_witness :
  sleep_raises Ex.world (Finite 3) = None /\
  ["R2"; "R3"; "R1"]%string <> [] /\
  exists s' t,
    build_loop Ex.world (Ex.args_for "cached-consensus" None [])
      ["R2"; "R3"; "R1"]%string Ex.s0
    = (Return tt, s', t) /\
    requests t = [["FH"; "R2"]; ["FH"; "R3"]; ["FH"; "R1"]]%string.
Proof.
  split; [reflexivity|]. split; [discriminate|].
  destruct (build_loop_requests_each_exit_in_order Ex.world
              (Ex.args_for "cached-consensus" None [])
              ["R2"; "R3"; "R1"]%string Ex.s0 eq_refl)
    as (s' & t & H & Hr & _); [discriminate|].
  exists s', t. split; [exact H|exact Hr].
Defined.

(** C3 as stated fails: with [-d -1] the sleep after the first request
    raises, outside the [try], so of three selected exits only the first
    is requested and the module's run ends in that error. *)
Lemma build_loop_requests_counterexample :
  build_loop Ex.world (Ex2.args_with_delay (Finite (-1)) [])
    ["R2"; "R3"; "R1"]%string Ex.s0
  = (Raise (IOError "Invalid argument"), mkState (mkStatistics 0 0 0) 0 1,
     [EvNewCircuit ["FH"; "R2"]%string]) /\
  exists s' t,
    run_module Ex.world "any" (Ex2.args_with_delay (Finite (-1)) []) Ex.s0
    = (Raise (IOError "Invalid argument"), s', t) /\
    requests t = [["FH"; "R2"]%string] /\
    total_circuits (stats s') = 3.
Proof.
  split; [reflexivity|]. do 2 eexists. repeat split; reflexivity.
Qed.




(** C8, as amended.  When [time.sleep] accepts the build delay, every
    request of the loop over a non-empty [l] is followed by a sleep of
    [build_delay] before the next one, whether the controller acknowledged
    it or not: the requests and sleeps of the trace alternate, one pair
    per exit, so there are as many sleeps as exits and the last follows
    the final request. *)
Theorem build_loop_sleeps_after_every_request W args l s :
  sleep_raises W (build_delay args) = None ->
  l <> [] ->
  exists s' t,
    build_loop W args l s = (Return tt, s', t) /\
    pacing t = flat_map (fun exit_relay =>
                           [EvNewCircuit [first_hop args; exit_relay];
                            EvSleep (build_delay args)]) l /\
    length (List.filter is_sleep t) = length l /\
    last (pacing t) = Some (EvSleep (build_delay args)).
Proof.
  intros Hsl Hne.
  destruct (build_loop_spec W args l Hsl s) as (s' & t & Hb & _ & Hp & _).
  exists s', t. split; [exact Hb|]. split; [exact Hp|]. split.
  - rewrite <- filter_sleep_pacing, Hp. apply pacing_of_loop_sleeps.
  - rewrite Hp. apply pacing_of_loop_last, Hne.
Qed.

Lemma build_loop_sleeps_after_every_request_witness :
  sleep_raises Ex.world (Finite 3) = None /\
  exists s' t,
    build_loop Ex.world (Ex.args_for "cached-consensus" None [])
      ["R2"; "R3"; "R1"]%string Ex.s0
    = (Return tt, s', t) /\
    pacing t = [EvNewCircuit ["FH"; "R2"]%string; EvSleep (Finite 3);
                EvNewCircuit ["FH"; "R3"]%string; EvSleep (Finite 3);
                EvNewCircuit ["FH"; "R1"]%string; EvSleep (Finite 3)] /\
    length (List.filter is_sleep t) = 3%nat.
Proof.
  split; [reflexivity|].
  destruct (build_loop_sleeps_after_every_request Ex.world
              (Ex.args_for "cached-consensus" None [])
              ["R2"; "R3"; "R1"]%string Ex.s0 eq_refl)
    as (s' & t & H & Hp & Hl & _); [discriminate|].
  exists s', t. split; [exact H|]. split; [exact Hp|exact Hl].
Defined.

(** C8 as stated fails: with [-d -1] the loop does not sleep after its
    first request: [time.sleep] raises, no sleep is completed and the loop
    is left. *)
Lemma build_loop_sleeps_counterexample :
  exists s' t,
    build_loop Ex.world (Ex2.args_with_delay (Finite (-1)) [])
      ["R2"; "R3"; "R1"]%string Ex.s0
    = (Raise (IOError "Invalid argument"), s', t) /\
    requests t = [["FH"; "R2"]%string] /\
    List.filter is_sleep t = [].
Proof. do 2 eexists. repeat split; reflexivity. Qed.

(** ** The counters *)

(** C5.  Once the module is imported and the selection [l] is made, the
    first write to the statistics adds [length l] to [total_circuits]; no
    circuit request and no other write to the statistics comes before it,
    and every later write, and the end of the run, shows the same total,
    whatever the controller answers and also when the run is then refused
    for want of exits. *)
Theorem total_circuits_counts_attempts_up_front W args name m s l s1 t1 :
  import_module W name = Some m ->
  select_exits W args m s = (Return l, s1, t1) ->
  exists o s' post,
    run_module W name args s
    = (o, s',
       (EvLog INFO (MsgRunning name) :: t1)
       ++ EvStats (add_total (Z.of_nat (length l)) (stats s)) :: post) /\
    requests (EvLog INFO (MsgRunning name) :: t1) = [] /\
    (forall st, ~ In (EvStats st) (EvLog INFO (MsgRunning name) :: t1)) /\
    total_circuits (stats s') = total_circuits (stats s) + Z.of_nat (length l) /\
    Forall (fun ev => forall st, ev = EvStats st ->
              total_circuits st = total_circuits (stats s) + Z.of_nat (length l))
           post.
Proof.
  intros Hi Hs.
  destruct (select_exits_quiet W args m s _ _ _ Hs)
    as (Hrq & _ & _ & Hst & _ & Hno).
  assert (Hpre : requests (EvLog INFO (MsgRunning name) :: t1) = [] /\
                 (forall st, ~ In (EvStats st) (EvLog INFO (MsgRunning name) :: t1))).
  { split; [exact Hrq|]. intros st [H|H]; [discriminate|exact (Hno st H)]. }
  destruct l as [|e l].
  - exists (Raise (ExitSelectionError
                     "Exit selection yielded 0 exits but need at least one.")),
           (mkState (add_total 0 (stats s1)) (draws s1) (calls s1)), [].
    split.
    { rewrite (run_module_imported W args name m s Hi).
      rewrite (scan_empty W args m s s1 t1 Hs). rewrite Hst. reflexivity. }
    split; [apply Hpre|]. split; [apply Hpre|]. split.
    + rewrite Hst. reflexivity.
    + constructor.
  - destruct (run_module_selected W args name m s (e :: l) s1 t1 Hi Hs)
      as (o & s' & post & Hrun & _ & _ & Ht & _ & _ & Hall & _); [discriminate|].
    exists o, s', post. split; [exact Hrun|].
    split; [apply Hpre|]. split; [apply Hpre|]. split; [exact Ht|exact Hall].
Qed.

Lemma total_circuits_counts_attempts_up_front_witness :
  import_module Ex.world "any" = Some Ex.any /\
  exists o s' pre post,
    run_module Ex.world "any" (Ex.args_for "cached-consensus" None []) Ex.s0
    = (o, s', pre ++ EvStats (mkStatistics 3 0 0) :: post) /\
    requests pre = [] /\
    total_circuits (stats s') = 3.
Proof.
  split; [reflexivity|].
  destruct (total_circuits_counts_attempts_up_front Ex.world
              (Ex.args_for "cached-consensus" None []) "any" Ex.any Ex.s0
              ["R2"; "R3"; "R1"]%string _ _ eq_refl eq_refl)
    as (o & s' & post & H & Hr & _ & Ht & _).
  exists o, s'. do 2 eexists. split; [exact H|]. split; [exact Hr|exact Ht].
Defined.

(** C7.  When the selection is empty, the run does not complete: it raises
    the exit-selection error whose message names the count 0, after adding
    0 to [total_circuits]; no circuit request is issued and [modules_run]
    is not increased. *)
Theorem zero_exits_raises_selection_error W args name m s s1 t1 :
  import_module W name = Some m ->
  select_exits W args m s = (Return [], s1, t1) ->
  exists s' t,
    run_module W name args s
    = (Raise (ExitSelectionError
                "Exit selection yielded 0 exits but need at least one."),
       s', t) /\
    requests t = [] /\
    stats s' = add_total 0 (stats s) /\
    modules_run (stats s') = modules_run (stats s).
Proof.
  intros Hi Hs.
  destruct (select_exits_quiet W args m s _ _ _ Hs)
    as (_ & _ & _ & Hst & _ & _).
  do 2 eexists. split.
  { rewrite (run_module_imported W args name m s Hi).
    rewrite (scan_empty W args m s s1 t1 Hs). reflexivity. }
  rewrite (proj1 (run_prefix_quiet W args m s _ _ _ name _ Hs)).
  cbn [stats]. rewrite Hst. repeat split; reflexivity.
Qed.

Lemma zero_exits_raises_selection_error_witness :
  import_module Ex.world "smtp9" = Some Ex.smtp9 /\
  exists s' t,
    run_module Ex.world "smtp9" (Ex.args_for "cached-consensus" None []) Ex.s0
    = (Raise (ExitSelectionError
                "Exit selection yielded 0 exits but need at least one."),
       s', t) /\
    requests t = [].
Proof.
  split; [reflexivity|].
  destruct (zero_exits_raises_selection_error Ex.world
              (Ex.args_for "cached-consensus" None []) "smtp9" Ex.smtp9 Ex.s0
              _ _ eq_refl eq_refl)
    as (s' & t & H & Hr & _).
  exists s', t. split; [exact H|exact Hr].
Defined.

(** ** The loop over the requested modules *)

(** C10.  When a module fails to import, [run_module] logs the error and
    returns normally with the whole process state, the three counters
    included, as it found it; the loop over the modules then runs the
    remaining ones from that same state. *)
Theorem failed_import_is_skipped W args name s :
  import_module W name = None ->
  run_module W name args s
  = (Return tt, s,
     [EvLog INFO (MsgRunning name); EvLog ERROR (MsgImportFailed name)]) /\
  (forall rest,
      run_modules W (name :: rest) args s
      = (let '(o, s', t) := run_modules W rest args s in
         (o, s', [EvLog INFO (MsgRunning name);
                  EvLog ERROR (MsgImportFailed name)] ++ t))).
Proof.
  intros Hi. split; [apply run_module_import_failed, Hi|].
  intros rest. rewrite run_modules_cons.
  rewrite (run_module_import_failed W args name s Hi). reflexivity.
Qed.

Lemma failed_import_is_skipped_witness :
  import_module Ex.world "nosuch" = None /\
  run_module Ex.world "nosuch" (Ex.args_for "cached-consensus" None []) Ex.s0
  = (Return tt, Ex.s0,
     [EvLog INFO (MsgRunning "nosuch"); EvLog ERROR (MsgImportFailed "nosuch")]) /\
  exists s t,
    run_modules Ex.world ["nosuch"; "web"]%string
      (Ex.args_for "cached-consensus" None []) Ex.s0
    = (Return tt, s, t) /\
    started t = ["nosuch"; "web"]%string.
Proof.
  split; [reflexivity|].
  pose proof (failed_import_is_skipped Ex.world
                (Ex.args_for "cached-consensus" None []) "nosuch" Ex.s0 eq_refl)
    as [H1 H2].
  split; [exact H1|]. rewrite (H2 ["web"%string]).
  do 2 eexists. split; reflexivity.
Defined.

(** C1, as amended.  In an invocation whose setup has succeeded and whose
    first hop is listed, an exception that leaves one module's run, such
    as the exit-selection error or an unresolved destination, is not
    caught by the driver: it leaves the loop and [main] at once, with the
    state and the trace that run ended in, and nothing of the modules
    requested after it is run. *)
Theorem configuration_error_leaves_main W args pre name post e s s1 t1 s2 t2 :
  setup_succeeds W args ->
  relay_in_consensus W (first_hop args) (get_consensus_path W args) = true ->
  module args = pre ++ name :: post ->
  run_modules W pre args (mkState (new_Statistics W) (draws s) (calls s))
  = (Return tt, s1, t1) ->
  run_module W name args s1 = (Raise e, s2, t2) ->
  main W args s = (Raise e, s2, setup_trace W args ++ t1 ++ t2).
Proof.
  intros Ht Hf Hm Hpre Hrun.
  rewrite (main_runs W args s Ht Hf), Hm.
  rewrite (run_modules_raise W args pre name post e _ s1 t1 s2 t2 Hpre Hrun).
  reflexivity.
Qed.

Lemma configuration_error_leaves_main_witness :
  module (Ex.args_for "cached-consensus" None ["web"; "smtp9"; "any"]%string)
  = ["web"%string] ++ "smtp9"%string :: ["any"%string] /\
  exists s t,
    main Ex.world (Ex.args_for "cached-consensus" None ["web"; "smtp9"; "any"]%string)
      Ex.s0
    = (Raise (ExitSelectionError
                "Exit selection yielded 0 exits but need at least one."),
       s, t) /\
    started t = ["web"; "smtp9"]%string.
Proof.
  split; [reflexivity|].
  do 2 eexists. split.
  - eapply (configuration_error_leaves_main Ex.world
              (Ex.args_for "cached-consensus" None ["web"; "smtp9"; "any"]%string)
              ["web"%string] "smtp9"%string ["any"%string]);
      first [ repeat split; reflexivity | vm_compute; reflexivity ].
  - reflexivity.
Defined.

(** C1 as stated fails: with the modules smtp9 and web requested, the
    first selects no exit; [main] ends in the exit-selection error and web
    is never started, though web on its own runs to the end.  So the loop
    does not go on after a configuration error. *)
Lemma module_isolation_counterexample :
  (exists s t,
     main Ex.world (Ex.args_for "cached-consensus" None ["smtp9"; "web"]%string)
       Ex.s0
     = (Raise (ExitSelectionError
                 "Exit selection yielded 0 exits but need at least one."),
        s, t) /\
     started t = ["smtp9"%string]) /\
  (exists s t,
     main Ex.world (Ex.args_for "cached-consensus" None ["web"%string]) Ex.s0
     = (Return 0, s, t) /\
     started t = ["web"%string]) /\
  ~ module_isolation.
Proof.
  split; [do 2 eexists; split; reflexivity|].
  split; [do 2 eexists; split; reflexivity|].
  intros H.
  destruct (H Ex.world (Ex.args_for "cached-consensus" None []) Ex.s0
              "smtp9"%string ["web"%string] _ _ _ eq_refl eq_refl)
    as (o & s2 & t2 & H1 & H2).
  vm_compute in H1, H2. congruence.
Qed.

(** * Further properties of the driver *)

(** ** Accounting of one module's run *)

Lemma rejected_none W fh exit_relays : forall k,
  (forall k' p, new_circuit_ok W k' p = true) ->
  rejected W fh k exit_relays = O.
Proof.
  induction exit_relays as [|e rest IH]; intros k H; simpl; [reflexivity|].
  rewrite H, IH by exact H. reflexivity.
Qed.

(** However a module's run ends: [total_circuits] has grown by at least
    the number of requests the run issued, and by exactly that number when
    the run returned; [failed_circuits] by at most that number;
    [modules_run] by one exactly when an imported module's run returned;
    and the run logged its own start and no other. *)
Lemma run_module_accounting W args name s o s' t :
  run_module W name args s = (o, s', t) ->
  total_circuits (stats s) + Z.of_nat (length (requests t))
    <= total_circuits (stats s') /\
  (forall u, o = Return u ->
     total_circuits (stats s')
     = total_circuits (stats s) + Z.of_nat (length (requests t))) /\
  failed_circuits (stats s) <= failed_circuits (stats s')
    <= failed_circuits (stats s) + Z.of_nat (length (requests t)) /\
  modules_run (stats s')
  = modules_run (stats s)
    + match o, import_module W name with
      | Return _, Some _ => 1
      | _, _ => 0
      end /\
  started t = [name].
Proof.
  destruct (import_module W name) as [m|] eqn:Hi.
  2:{ rewrite (run_module_import_failed W args name s Hi).
      intros [= <- <- <-]. simpl. repeat split; lia. }
  destruct (select_exits W args m s) as [[os s1] t1] eqn:Hs.
  destruct (select_exits_quiet W args m s _ _ _ Hs)
    as (Hrq & _ & Hsta & Hst & _ & _).
  destruct os as [l|e|c].
  - destruct l as [|x l].
    + rewrite (run_module_imported W args name m s Hi).
      rewrite (scan_empty W args m s s1 t1 Hs). intros [= <- <- <-].
      cbn [requests started stats add_total total_circuits failed_circuits
           modules_run].
      rewrite requests_app, started_app, Hrq, Hsta, Hst. simpl.
      repeat split; try lia; try (intros; discriminate).
    + destruct (run_module_selected W args name m s (x :: l) s1 t1 Hi Hs)
        as (o' & s2 & post & Hrun & Hn & Hstp & Ht & Hf & Hm & _ & Ho);
        [discriminate|].
      rewrite Hrun. intros [= <- <- <-].
      cbn [app requests started].
      rewrite requests_app, started_app, Hrq, Hsta. cbn [app requests started].
      rewrite Hstp. split; [lia|]. split.
      { intros u ->. rewrite Ho, length_map. exact Ht. }
      split; [exact Hf|]. split; [|reflexivity].
      rewrite Hm. destruct o'; reflexivity.
  - rewrite (run_module_imported W args name m s Hi). unfold scan.
    erewrite bind_Raise by exact Hs. intros [= <- <- <-].
    simpl. rewrite Hrq, Hsta, Hst. simpl.
    repeat split; try lia; try (intros; discriminate).
  - rewrite (run_module_imported W args name m s Hi). unfold scan.
    erewrite bind_SystemExit by exact Hs. intros [= <- <- <-].
    simpl. rewrite Hrq, Hsta, Hst. simpl.
    repeat split; try lia; try (intros; discriminate).
Qed.

(** The same over the loop of [main]: the modules started are a prefix of
    the requested ones, all of them when the loop returns. *)
Lemma run_modules_accounting W args names : forall s o s' t,
  run_modules W names args s = (o, s', t) ->
  total_circuits (stats s) + Z.of_nat (length (requests t))
    <= total_circuits (stats s') /\
  failed_circuits (stats s) <= failed_circuits (stats s')
    <= failed_circuits (stats s) + Z.of_nat (length (requests t)) /\
  modules_run (stats s) <= modules_run (stats s')
    <= modules_run (stats s) + Z.of_nat (importable W (started t)) /\
  (exists rest, names = started t ++ rest) /\
  (forall u, o = Return u ->
     started t = names /\
     modules_run (stats s')
     = modules_run (stats s) + Z.of_nat (importable W names) /\
     total_circuits (stats s')
     = total_circuits (stats s) + Z.of_nat (length (requests t))).
Proof.
  induction names as [|name rest IH]; intros s o s' t.
  - intros [= <- <- <-]. unfold importable. simpl.
    repeat split; try lia. exists []. reflexivity.
  - rewrite run_modules_cons.
    destruct (run_module W name args s) as [[o1 s1] t1] eqn:H1.
    destruct (run_module_accounting W args name s o1 s1 t1 H1)
      as (Ht1 & Hte1 & Hf1 & Hm1 & Hs1).
    assert (Himp : importable W [name]
                   = match import_module W name with Some _ => 1 | None => 0 end%nat).
    { unfold importable. simpl. destruct (import_module W name); reflexivity. }
    assert (Hcons : forall l, importable W (name :: l)
                              = (importable W [name] + importable W l)%nat).
    { intros l. unfold importable. simpl.
      destruct (import_module W name); reflexivity. }
    destruct o1 as [[]|e|c].
    + destruct (run_modules W rest args s1) as [[o2 s2] t2] eqn:H2.
      destruct (IH s1 o2 s2 t2 H2) as (Ht2 & Hf2 & Hm2 & [r Hr] & Hret).
      specialize (Hte1 tt eq_refl).
      intros [= <- <- <-].
      rewrite requests_app, started_app, length_app, Hs1.
      change ([name] ++ started t2) with (name :: started t2).
      rewrite Hcons, Himp.
      assert (Hfin : forall u : unit, o2 = Return u ->
                 name :: started t2 = name :: rest /\
                 modules_run (stats s2)
                 = modules_run (stats s) + Z.of_nat (importable W (name :: rest)) /\
                 total_circuits (stats s2)
                 = total_circuits (stats s)
                   + Z.of_nat (length (requests t1) + length (requests t2))).
      { intros u Hu. destruct (Hret u Hu) as (E1 & E2 & E3).
        rewrite E1, E2, E3, (Hcons rest), Himp.
        split; [reflexivity|]. destruct (import_module W name); lia. }
      assert (Hpre : exists r', name :: rest = (name :: started t2) ++ r').
      { exists r. simpl. rewrite <- Hr. reflexivity. }
      rewrite Himp in *.
      destruct (import_module W name) as [m|];
        (split; [lia|]); (split; [lia|]); (split; [lia|]);
        (split; [exact Hpre|exact Hfin]).
    + intros [= <- <- <-]. rewrite Hs1, Himp.
      destruct (import_module W name);
        (split; [lia|]); (split; [lia|]); (split; [lia|]);
        (split; [exists rest; reflexivity|intros ? ?; discriminate]).
    + intros [= <- <- <-]. rewrite Hs1, Himp.
      destruct (import_module W name);
        (split; [lia|]); (split; [lia|]); (split; [lia|]);
        (split; [exists rest; reflexivity|intros ? ?; discriminate]).
Qed.

(** ** How main ends *)

Lemma main_tor_failed W args s :
  set_level_raises W (upper (verbosity args)) = None ->
  tor_starts W = false ->
  main W args s
  = (SystemExit 1, mkState (new_Statistics W) (draws s) (calls s),
     [EvStats (new_Statistics W); EvLog DEBUG MsgArguments;
      EvLog INFO (MsgInvokeTor (temp_dir args)); EvLog ERROR MsgTorFailed]).
Proof.
  intros Hl Ht. unfold main, bootstrap_tor, bind, update_stats, log, emit, or_raise.
  rewrite Hl, Ht. reflexivity.
Qed.

Lemma main_first_hop_missing W args s :
  setup_succeeds W args ->
  relay_in_consensus W (first_hop args) (get_consensus_path W args) = false ->
  main W args s
  = (Return 1, mkState (new_Statistics W) (draws s) (calls s),
     setup_trace W args ++ [EvLog ERROR (MsgFirstHopMissing (first_hop args))]).
Proof.
  intros (Hl & Ht & Hp & Ha & Hc1 & Hc2) Hf. unfold main, bootstrap_tor, set_conf.
  unfold bind, update_stats, log, emit, or_raise.
  rewrite Hl, Ht, Hp, Ha, Hc1, Hc2, Hf. reflexivity.
Qed.

(** When something of the setup fails, [main] ends there, without a
    return value: nothing was requested and no module was started. *)
Lemma main_setup_fails W args s o s' t :
  ~ setup_succeeds W args ->
  main W args s = (o, s', t) ->
  (forall c, o <> Return c) /\
  stats s' = new_Statistics W /\ requests t = [] /\ started t = [].
Proof.
  intros Hno. unfold main, bootstrap_tor, set_conf.
  unfold bind, update_stats, log, emit, or_raise.
  destruct (set_level_raises W (upper (verbosity args))) eqn:Hl.
  { intros [= <- <- <-]. repeat split; try reflexivity. intros c; discriminate. }
  destruct (tor_starts W) eqn:Ht.
  2:{ intros [= <- <- <-]. repeat split; try reflexivity. intros c; discriminate. }
  destruct (from_port_raises W) eqn:Hp.
  { intros [= <- <- <-]. repeat split; try reflexivity. intros c; discriminate. }
  destruct (authenticate_raises W) eqn:Ha.
  { intros [= <- <- <-]. repeat split; try reflexivity. intros c; discriminate. }
  destruct (set_conf_raises W "Log" "err file /dev/null") eqn:Hc1.
  { intros [= <- <- <-]. repeat split; try reflexivity. intros c; discriminate. }
  destruct (set_conf_raises W "FetchServerDescriptors" "0") eqn:Hc2.
  { intros [= <- <- <-]. repeat split; try reflexivity. intros c; discriminate. }
  exfalso. apply Hno. repeat split; assumption.
Qed.

Lemma setup_succeeds_dec W args : setup_succeeds W args \/ ~ setup_succeeds W args.
Proof.
  unfold setup_succeeds.
  destruct (set_level_raises W (upper (verbosity args)));
    [right; intros (H & _); discriminate|].
  destruct (tor_starts W); [|right; intros (_ & H & _); discriminate].
  destruct (from_port_raises W); [right; intros (_ & _ & H & _); discriminate|].
  destruct (authenticate_raises W);
    [right; intros (_ & _ & _ & H & _); discriminate|].
  destruct (set_conf_raises W "Log" "err file /dev/null");
    [right; intros (_ & _ & _ & _ & H & _); discriminate|].
  destruct (set_conf_raises W "FetchServerDescriptors" "0");
    [right; intros (_ & _ & _ & _ & _ & H); discriminate|].
  left. repeat split; reflexivity.
Qed.

(** The three ways [main] can go, with what the loop over the modules did
    in the third. *)
Lemma main_cases W args s o s' t :
  main W args s = (o, s', t) ->
  (~ setup_succeeds W args /\ (forall c, o <> Return c) /\
   stats s' = new_Statistics W /\ requests t = [] /\ started t = []) \/
  (setup_succeeds W args /\
   relay_in_consensus W (first_hop args) (get_consensus_path W args) = false /\
   o = Return 1 /\
   stats s' = new_Statistics W /\ requests t = [] /\ started t = []) \/
  (setup_succeeds W args /\
   relay_in_consensus W (first_hop args) (get_consensus_path W args) = true /\
   exists o' t',
     run_modules W (module args) args
       (mkState (new_Statistics W) (draws s) (calls s)) = (o', s', t') /\
     requests t = requests t' /\ started t = started t' /\
     o = match o' with
         | Return _ => Return 0
         | Raise e => Raise e
         | SystemExit c => SystemExit c
         end).
Proof.
  destruct (setup_succeeds_dec W args) as [Hok|Hno].
  2:{ intros H. left. split; [exact Hno|].
      apply (main_setup_fails W args s o s' t Hno H). }
  destruct (relay_in_consensus W (first_hop args) (get_consensus_path W args))
    eqn:Hf.
  2:{ rewrite (main_first_hop_missing W args s Hok Hf). intros [= <- <- <-].
      right; left. repeat split; try reflexivity; apply Hok. }
  rewrite (main_runs W args s Hok Hf).
  destruct (run_modules W (module args) args _) as [[o' s2] t'] eqn:Hr.
  intros [= <- <- <-]. right; right. split; [exact Hok|]. split; [reflexivity|].
  exists o', t'. repeat split; reflexivity.
Qed.

(** X1.  When the setup of [main] succeeds and the first hop is not listed
    in the consensus, [main] returns 1 with the fresh statistics: no
    module is started and no circuit is requested. *)
Theorem first_hop_missing_returns_1 W args s :
  setup_succeeds W args ->
  relay_in_consensus W (first_hop args) (get_consensus_path W args) = false ->
  exists s' t,
    main W args s = (Return 1, s', t) /\
    stats s' = new_Statistics W /\
    requests t = [] /\ started t = [] /\
    last t = Some (EvLog ERROR (MsgFirstHopMissing (first_hop args))).
Proof.
  intros Hok Hf. do 2 eexists.
  split; [apply (main_first_hop_missing W args s Hok Hf)|].
  repeat split; reflexivity.
Qed.

Lemma first_hop_missing_returns_1_witness :
  setup_succeeds Ex.world (Ex2.args_unknown_first_hop ["web"; "any"]%string) /\
  relay_in_consensus Ex.world "NOTLISTED" "cached-consensus" = false /\
  exists s' t,
    main Ex.world (Ex2.args_unknown_first_hop ["web"; "any"]%string) Ex2.s1
    = (Return 1, s', t) /\
    stats s' = mkStatistics 0 0 0 /\ requests t = [] /\ started t = [].
Proof.
  assert (Hok : setup_succeeds Ex.world
                  (Ex2.args_unknown_first_hop ["web"; "any"]%string)).
  { repeat split; reflexivity. }
  split; [exact Hok|]. split; [reflexivity|].
  destruct (first_hop_missing_returns_1 Ex.world
              (Ex2.args_unknown_first_hop ["web"; "any"]%string) Ex2.s1
              Hok eq_refl) as (s' & t & H & Hs & Hr & Hst & _).
  exists s', t. repeat split; assumption.
Defined.

(** X2.  When the log level is known and Tor cannot be started, [main]
    ends the process with status 1 before it connects to the controller or
    sets any option; no module is started and no circuit is requested. *)
Theorem tor_failure_ends_process_before_controller W args s :
  set_level_raises W (upper (verbosity args)) = None ->
  tor_starts W = false ->
  exists s' t,
    main W args s = (SystemExit 1, s', t) /\
    stats s' = new_Statistics W /\
    List.filter is_controller_setup t = [] /\
    requests t = [] /\ started t = [].
Proof.
  intros Hl Ht. do 2 eexists. split; [apply (main_tor_failed W args s Hl Ht)|].
  repeat split; reflexivity.
Qed.

Lemma tor_failure_ends_process_before_controller_witness :
  set_level_raises Ex2.world_without_tor "INFO" = None /\
  tor_starts Ex2.world_without_tor = false /\
  exists s' t,
    main Ex2.world_without_tor (Ex.args_for "cached-consensus" None ["web"%string])
      Ex2.s1
    = (SystemExit 1, s', t) /\
    List.filter is_controller_setup t = [] /\ requests t = [].
Proof.
  split; [reflexivity|]. split; [reflexivity|].
  destruct (tor_failure_ends_process_before_controller Ex2.world_without_tor
              (Ex.args_for "cached-consensus" None ["web"%string]) Ex2.s1
              eq_refl eq_refl)
    as (s' & t & H & _ & Hc & Hr & _).
  exists s', t. repeat split; assumption.
Defined.

(** X3.  If [main] returns at all, Tor had started and the value is 0 or 1:
    0 exactly when the first hop is listed, and then every requested module
    was started, in the order given; 1 when it is not, and then none. *)
Theorem main_return_value W args s c s' t :
  main W args s = (Return c, s', t) ->
  tor_starts W = true /\
  ((c = 0 /\
    relay_in_consensus W (first_hop args) (get_consensus_path W args) = true /\
    started t = module args) \/
   (c = 1 /\
    relay_in_consensus W (first_hop args) (get_consensus_path W args) = false /\
    started t = [])).
Proof.
  intros H. destruct (main_cases W args s _ _ _ H)
    as [(_ & Ho & _)|[(Hok & Hf & Ho & _ & _ & Hst)
                     |(Hok & Hf & o' & t' & Hr & _ & Hst & Ho)]].
  - exfalso. apply (Ho c). reflexivity.
  - injection Ho as ->. split; [apply Hok|]. right. repeat split; assumption.
  - destruct o' as [u|e|c']; try discriminate. injection Ho as ->.
    split; [apply Hok|]. left. split; [reflexivity|]. split; [exact Hf|].
    rewrite Hst.
    destruct (run_modules_accounting W args (module args) _ _ _ _ Hr)
      as (_ & _ & _ & _ & Hret).
    apply (Hret u eq_refl).
Qed.

Lemma main_return_value_witness :
  exists s' t,
    main Ex.world (Ex.args_for "cached-consensus" None ["web"; "nosuch"; "any"]%string)
      Ex2.s1
    = (Return 0, s', t) /\
    started t = ["web"; "nosuch"; "any"]%string.
Proof.
  destruct (main Ex.world
              (Ex.args_for "cached-consensus" None ["web"; "nosuch"; "any"]%string)
              Ex2.s1) as [[o s'] t] eqn:E.
  assert (Ho : o = Return 0) by (vm_compute in E; congruence).
  subst o.
  destruct (main_return_value Ex.world _ _ _ _ _ E)
    as (_ & [(_ & _ & Hst)|(Hc & _)]); [|discriminate].
  exists s', t. split; [reflexivity|exact Hst].
Defined.

(** ** The counters over a whole invocation *)

(** The counters at the end of [main], against the requests of its trace. *)
Lemma main_accounting W args s o s' t :
  main W args s = (o, s', t) ->
  total_circuits (new_Statistics W) + Z.of_nat (length (requests t))
    <= total_circuits (stats s') /\
  failed_circuits (new_Statistics W) <= failed_circuits (stats s')
    <= failed_circuits (new_Statistics W) + Z.of_nat (length (requests t)) /\
  (forall c, o = Return c ->
     total_circuits (stats s')
     = total_circuits (new_Statistics W) + Z.of_nat (length (requests t))).
Proof.
  intros H. destruct (main_cases W args s _ _ _ H)
    as [(_ & _ & Hs & Hr & _)|[(_ & _ & _ & Hs & Hr & _)
                              |(_ & _ & o' & t' & Hrun & Hr & _ & Ho)]].
  - rewrite Hs, Hr. simpl. repeat split; try lia; try (intros; lia).
  - rewrite Hs, Hr. simpl. repeat split; try lia; try (intros; lia).
  - rewrite Hr.
    destruct (run_modules_accounting W args (module args) _ _ _ _ Hrun)
      as (Ht & Hf & _ & _ & Hret).
    split; [exact Ht|]. split; [exact Hf|].
    intros c Hc. destruct o' as [u|e|c']; [|subst o; discriminate..].
    apply (Hret u eq_refl).
Qed.

(** X4.  However [main] ends, [total_circuits] stands at no less than its
    fresh value plus the number of circuit requests issued during the
    invocation; when [main] returns, at exactly that. *)
Theorem main_total_circuits_counts_requests W args s o s' t :
  main W args s = (o, s', t) ->
  total_circuits (new_Statistics W) + Z.of_nat (length (requests t))
    <= total_circuits (stats s') /\
  (forall c, o = Return c ->
     total_circuits (stats s')
     = total_circuits (new_Statistics W) + Z.of_nat (length (requests t))).
Proof.
  intros H. destruct (main_accounting W args s o s' t H) as (Ht & _ & He).
  split; [exact Ht|exact He].
Qed.

Lemma main_total_circuits_counts_requests_witness :
  (exists s' t,
     main Ex.world (Ex.args_for "cached-consensus" None ["web"; "any"]%string)
       Ex2.s1
     = (Return 0, s', t) /\
     length (requests t) = 5%nat /\
     total_circuits (stats s') = 5) /\
  (exists s' t,
     main Ex.world (Ex2.args_with_delay (Finite (-1)) ["any"%string]) Ex2.s1
     = (Raise (IOError "Invalid argument"), s', t) /\
     length (requests t) = 1%nat /\
     1 <= total_circuits (stats s')).
Proof.
  split.
  - destruct (main Ex.world
                (Ex.args_for "cached-consensus" None ["web"; "any"]%string)
                Ex2.s1) as [[o s'] t] eqn:E.
    destruct (main_total_circuits_counts_requests Ex.world _ _ _ _ _ E)
      as [_ He].
    assert (Ho : o = Return 0 /\ length (requests t) = 5%nat).
    { vm_compute in E. injection E as <- <- <-. split; reflexivity. }
    destruct Ho as [-> Hn]. specialize (He 0 eq_refl). rewrite Hn in He.
    exists s', t. split; [reflexivity|]. split; [exact Hn|exact He].
  - destruct (main Ex.world (Ex2.args_with_delay (Finite (-1)) ["any"%string])
                Ex2.s1) as [[o s'] t] eqn:E.
    destruct (main_total_circuits_counts_requests Ex.world _ _ _ _ _ E)
      as [Hle _].
    assert (Ho : o = Raise (IOError "Invalid argument")
                 /\ length (requests t) = 1%nat).
    { vm_compute in E. injection E as <- <- <-. split; reflexivity. }
    destruct Ho as [-> Hn]. rewrite Hn in Hle.
    exists s', t. split; [reflexivity|]. split; [exact Hn|exact Hle].
Defined.

(** X5.  However [main] ends, the driver has added to [failed_circuits]
    no more than the number of requests it issued and has never lowered
    it; so when the fresh statistics have no more failures than attempts,
    neither have the final ones. *)
Theorem main_failed_circuits_bounded W args s o s' t :
  main W args s = (o, s', t) ->
  failed_circuits (new_Statistics W) <= failed_circuits (stats s')
    <= failed_circuits (new_Statistics W) + Z.of_nat (length (requests t)) /\
  (failed_circuits (new_Statistics W) <= total_circuits (new_Statistics W) ->
   failed_circuits (stats s') <= total_circuits (stats s')).
Proof.
  intros H. destruct (main_accounting W args s o s' t H) as (Ht & Hf & _).
  split; [exact Hf|]. lia.
Qed.

Lemma main_failed_circuits_bounded_witness :
  exists o s' t,
    main Ex.world (Ex.args_for "cached-consensus" None ["web"; "any"]%string) Ex2.s1
    = (o, s', t) /\
    0 <= failed_circuits (stats s') <= 5 /\
    failed_circuits (stats s') <= total_circuits (stats s').
Proof.
  destruct (main Ex.world
              (Ex.args_for "cached-consensus" None ["web"; "any"]%string)
              Ex2.s1) as [[o s'] t] eqn:E.
  destruct (main_failed_circuits_bounded Ex.world _ _ _ _ _ E) as [Hb Hle].
  assert (Hn : length (requests t) = 5%nat).
  { vm_compute in E. injection E as <- <- <-. reflexivity. }
  rewrite Hn in Hb. exists o, s', t. split; [reflexivity|].
  split; [exact Hb|]. apply Hle. simpl. lia.
Defined.

(** X6.  When [main] returns 0, [modules_run] stands at its fresh value
    plus the number of requested modules that could be imported: each of
    them ran to its end, and a module that failed to import is not
    counted. *)
Theorem main_modules_run_counts_imported_modules W args s s' t :
  main W args s = (Return 0, s', t) ->
  modules_run (stats s')
  = modules_run (new_Statistics W) + Z.of_nat (importable W (module args)).
Proof.
  intros H. destruct (main_cases W args s _ _ _ H)
    as [(_ & Ho & _)|[(_ & _ & Ho & _)|(_ & _ & o' & t' & Hrun & _ & _ & Ho)]];
    [exfalso; apply (Ho 0); reflexivity|discriminate|].
  destruct o' as [u|e|c]; try discriminate.
  destruct (run_modules_accounting W args (module args) _ _ _ _ Hrun)
    as (_ & _ & _ & _ & Hret).
  apply (Hret u eq_refl).
Qed.

Lemma main_modules_run_counts_imported_modules_witness :
  importable Ex.world ["web"; "nosuch"; "any"]%string = 2%nat /\
  exists s' t,
    main Ex.world (Ex.args_for "cached-consensus" None ["web"; "nosuch"; "any"]%string)
      Ex2.s1
    = (Return 0, s', t) /\
    modules_run (stats s') = 2.
Proof.
  split; [reflexivity|].
  destruct (main Ex.world
              (Ex.args_for "cached-consensus" None ["web"; "nosuch"; "any"]%string)
              Ex2.s1) as [[o s'] t] eqn:E.
  assert (Ho : o = Return 0) by (vm_compute in E; congruence).
  subst o. exists s', t. split; [reflexivity|].
  apply (main_modules_run_counts_imported_modules Ex.world _ _ _ _ E).
Defined.

(** X13.  However one module's run ends, no counter has gone down:
    [total_circuits] has grown by at least the number of requests the run
    issued, and by exactly that number when the run returned;
    [failed_circuits] by at most that number; and [modules_run] by one
    when an imported module's run returned and by nothing otherwise. *)
Theorem run_module_counters W args name s o s' t :
  run_module W name args s = (o, s', t) ->
  total_circuits (stats s) + Z.of_nat (length (requests t))
    <= total_circuits (stats s') /\
  (forall u, o = Return u ->
     total_circuits (stats s')
     = total_circuits (stats s) + Z.of_nat (length (requests t))) /\
  failed_circuits (stats s) <= failed_circuits (stats s')
    <= failed_circuits (stats s) + Z.of_nat (length (requests t)) /\
  modules_run (stats s')
  = modules_run (stats s)
    + match o, import_module W name with
      | Return _, Some _ => 1
      | _, _ => 0
      end.
Proof.
  intros H. destruct (run_module_accounting W args name s o s' t H)
    as (Ht & He & Hf & Hm & _).
  split; [exact Ht|]. split; [exact He|]. split; [exact Hf|exact Hm].
Qed.

Lemma run_module_counters_witness :
  exists s' t,
    run_module Ex.world "any" (Ex.args_for "cached-consensus" None []) Ex2.s1
    = (Return tt, s', t) /\
    total_circuits (stats s') = 13 /\
    4 <= failed_circuits (stats s') <= 7 /\
    modules_run (stats s') = 3.
Proof.
  destruct (run_module Ex.world "any" (Ex.args_for "cached-consensus" None [])
              Ex2.s1) as [[o s'] t] eqn:E.
  destruct (run_module_counters Ex.world _ _ _ _ _ _ E) as (_ & Ht & Hf & Hm).
  assert (Hn : o = Return tt /\ length (requests t) = 3%nat).
  { vm_compute in E. injection E as <- <- <-. split; reflexivity. }
  destruct Hn as [-> Hn]. specialize (Ht tt eq_refl). rewrite Hn in Ht, Hf.
  exists s', t. split; [reflexivity|]. split; [exact Ht|].
  split; [exact Hf|exact Hm].
Defined.

(** ** Exit selection and the loop, on their own *)

(** The shuffle reads the world's generator and nothing else of it. *)
Lemma shuffle_with_resolver {A} W resolver (x : list A) s :
  shuffle (with_resolver W resolver) x s = shuffle W x s.
Proof. reflexivity. Qed.

(** X7.  However [select_exits] ends, it has requested no circuit, has not
    slept, has written nothing to the statistics and leaves the counters
    as they were. *)
Theorem select_exits_touches_nothing W args m s o s1 t1 :
  select_exits W args m s = (o, s1, t1) ->
  requests t1 = [] /\
  List.filter is_sleep t1 = [] /\
  (forall st, ~ In (EvStats st) t1) /\
  stats s1 = stats s /\ calls s1 = calls s.
Proof.
  intros H. destruct (select_exits_quiet W args m s _ _ _ H)
    as (Hr & Hp & _ & Hst & Hc & Hno).
  split; [exact Hr|]. split.
  - rewrite <- filter_sleep_pacing, Hp. reflexivity.
  - split; [exact Hno|]. split; [exact Hst|exact Hc].
Qed.

Lemma select_exits_touches_nothing_witness :
  exists l s1 t1,
    select_exits Ex.world (Ex.args_for "cached-consensus" None []) Ex.any Ex2.s1
    = (Return l, s1, t1) /\
    requests t1 = [] /\ stats s1 = mkStatistics 10 4 2 /\ calls s1 = 7%nat.
Proof.
  destruct (select_exits Ex.world (Ex.args_for "cached-consensus" None [])
              Ex.any Ex2.s1) as [[o s1] t1] eqn:E.
  destruct (select_exits_touches_nothing Ex.world _ _ _ _ _ _ E)
    as (Hr & _ & _ & Hst & Hc).
  assert (Ho : exists l, o = Return l).
  { vm_compute in E. injection E as <- _ _. eexists; reflexivity. }
  destruct Ho as [l ->].
  exists l, s1, t1. split; [reflexivity|]. split; [exact Hr|].
  split; [exact Hst|exact Hc].
Defined.

(** X8.  A declared destination that does not resolve ends the module's
    run with the resolver's error before anything is counted: the process
    state is unchanged and the run has only logged its start. *)
Theorem unresolved_destination_aborts_run W args name m ds s :
  import_module W name = Some m ->
  path_exists W (get_consensus_path W args) = true ->
  destinations m = Some ds ->
  Exists (unresolved W) ds ->
  exists host,
    In host (map fst ds) /\ gethostbyname W host = None /\
    run_module W name args s
    = (Raise (gaierror host), s, [EvLog INFO (MsgRunning name)]).
Proof.
  intros Hi Hc Hd Hu.
  destruct (select_exits_unresolved W args m ds s Hc Hd Hu) as (h & Hin & Hn & Hs).
  exists h. split; [exact Hin|]. split; [exact Hn|].
  rewrite (run_module_imported W args name m s Hi). unfold scan.
  erewrite bind_Raise by exact Hs. reflexivity.
Qed.

Lemma unresolved_destination_aborts_run_witness :
  import_module Ex.world "dead" = Some Ex.dead /\
  gethostbyname Ex.world "nowhere.invalid" = None /\
  run_module Ex.world "dead" (Ex.args_for "cached-consensus" None []) Ex2.s1
  = (Raise (gaierror "nowhere.invalid"), Ex2.s1, [EvLog INFO (MsgRunning "dead")]).
Proof.
  split; [reflexivity|]. split; [reflexivity|].
  destruct (unresolved_destination_aborts_run Ex.world
              (Ex.args_for "cached-consensus" None []) "dead" Ex.dead
              [("nowhere.invalid"%string, 80)] Ex2.s1 eq_refl eq_refl eq_refl)
    as (host & [Hin|[]] & _ & H).
  - constructor. reflexivity.
  - simpl in Hin. subst host. exact H.
Defined.

(** X9.  For a module that declares no destinations the resolver is never
    consulted: [select_exits] gives the same result whatever the resolver
    answers, and with the consensus present it returns a list. *)
Theorem no_destinations_never_resolves W args m s :
  destinations m = None ->
  (forall resolver,
      select_exits (with_resolver W resolver) args m s = select_exits W args m s) /\
  (path_exists W (get_consensus_path W args) = true ->
   exists l s' t, select_exits W args m s = (Return l, s', t)).
Proof.
  intros Hd. split.
  - intros resolver. unfold select_exits. rewrite Hd. unfold bind.
    cbn [get_consensus_path path_exists read_catalog with_resolver].
    destruct (path_exists W (get_consensus_path W args)); cbn [negb];
      [|reflexivity].
    cbn [ret]. destruct (truthy (exit args)); cbn [ret get_exits log emit];
      rewrite shuffle_with_resolver; reflexivity.
  - intros Hc.
    assert (Hr : resolves_to W m []).
    { unfold resolves_to. rewrite Hd. constructor. }
    destruct (truthy (exit args)) eqn:Ht.
    + destruct (exit args) as [fpr|] eqn:He; [|discriminate].
      do 3 eexists.
      apply (select_exits_single W args m [] fpr s Hc Hr He).
      rewrite He. exact Ht.
    + destruct (select_exits_filtered W args m [] s Hc Hr Ht) as (l & H & _).
      do 3 eexists. exact H.
Qed.

Lemma no_destinations_never_resolves_witness :
  destinations Ex.any = None /\
  select_exits (with_resolver Ex.world (fun _ => None))
    (Ex.args_for "cached-consensus" None []) Ex.any Ex2.s1
  = select_exits Ex.world (Ex.args_for "cached-consensus" None []) Ex.any Ex2.s1.
Proof.
  split; [reflexivity|].
  apply (proj1 (no_destinations_never_resolves Ex.world
                  (Ex.args_for "cached-consensus" None []) Ex.any Ex2.s1 eq_refl)).
Defined.

(** X10.  Only the error of a refused [time.sleep] can leave the build
    loop; a rejection by the controller never does.  However the loop
    ends, it has sent at most one request per exit, has left
    [total_circuits] and [modules_run] alone and has raised
    [failed_circuits] by at most the number of requests sent; when it
    returns, every exit was requested, in order. *)
Theorem build_loop_only_sleep_error_escapes W args exit_relays s :
  exists o s' t,
    build_loop W args exit_relays s = (o, s', t) /\
    (length (requests t) <= length exit_relays)%nat /\
    total_circuits (stats s') = total_circuits (stats s) /\
    modules_run (stats s') = modules_run (stats s) /\
    failed_circuits (stats s) <= failed_circuits (stats s')
      <= failed_circuits (stats s) + Z.of_nat (length (requests t)) /\
    match o with
    | Return _ =>
        requests t = map (fun exit_relay => [first_hop args; exit_relay])
                         exit_relays
    | Raise e => sleep_raises W (build_delay args) = Some e
    | SystemExit _ => False
    end.
Proof.
  destruct (build_loop_any W args exit_relays s)
    as (o & s' & t & Hb & Hn & _ & Ht & Hf & Hm & _ & Ho).
  exists o, s', t. split; [exact Hb|]. split; [exact Hn|]. split; [exact Ht|].
  split; [exact Hm|]. split; [exact Hf|exact Ho].
Qed.

(** X11.  When [time.sleep] accepts the build delay and the controller
    acknowledges every request, the loop writes nothing to the statistics:
    its trace is just a request and a sleep per exit, and only the count
    of requests sent has moved. *)
Theorem all_acknowledged_leaves_statistics W args exit_relays :
  sleep_raises W (build_delay args) = None ->
  (forall k p, new_circuit_ok W k p = true) ->
  forall s,
    build_loop W args exit_relays s
    = (Return tt,
       mkState (stats s) (draws s) (calls s + length exit_relays),
       flat_map (fun exit_relay =>
                   [EvNewCircuit [first_hop args; exit_relay];
                    EvSleep (build_delay args)]) exit_relays).
Proof.
  intros Hsl Hok. induction exit_relays as [|e rest IH]; intros s.
  - destruct s as [st d c]. simpl. unfold ret. rewrite Nat.add_0_r. reflexivity.
  - rewrite (build_loop_acked W args e rest s Hsl (Hok _ _)), IH.
    cbn [stats draws calls flat_map length]. do 3 f_equal. lia.
Qed.

Lemma all_acknowledged_leaves_statistics_witness :
  sleep_raises Ex2.world_all_acked (Finite 3) = None /\
  build_loop Ex2.world_all_acked (Ex.args_for "cached-consensus" None [])
    ["R3"; "R1"]%string Ex2.s1
  = (Return tt, mkState (mkStatistics 10 4 2) 5 9,
     [EvNewCircuit ["FH"; "R3"]%string; EvSleep (Finite 3);
      EvNewCircuit ["FH"; "R1"]%string; EvSleep (Finite 3)]).
Proof.
  split; [reflexivity|].
  apply (all_acknowledged_leaves_statistics Ex2.world_all_acked
           (Ex.args_for "cached-consensus" None []) ["R3"; "R1"]%string
           eq_refl (fun _ _ => eq_refl) Ex2.s1).
Defined.

(** X12.  A run with [-e fpr], the consensus present, the destinations
    resolved, the event handler registered and the build delay accepted by
    [time.sleep], requests exactly one circuit, first hop then [fpr],
    sleeps once, adds one to [total_circuits] and completes. *)
Theorem single_exit_run_requests_one_circuit W args name m hosts fpr s :
  import_module W name = Some m ->
  exit args = Some fpr ->
  truthy (exit args) = true ->
  path_exists W (get_consensus_path W args) = true ->
  resolves_to W m hosts ->
  scan_unhindered W args m ->
  exists s' t,
    run_module W name args s = (Return tt, s', t) /\
    requests t = [[first_hop args; fpr]] /\
    length (List.filter is_sleep t) = 1%nat /\
    total_circuits (stats s') = total_circuits (stats s) + 1 /\
    modules_run (stats s') = modules_run (stats s) + 1.
Proof.
  intros Hi He Ht Hc Hr Hun.
  pose proof (select_exits_single W args m hosts fpr s Hc Hr He Ht) as Hs.
  destruct (run_module_nonempty W args name m s [fpr] _ _ Hi Hs)
    as (s' & tl & Hrun & Hrq & Hp & Htot & _ & Hm & _);
    [discriminate|exact Hun|].
  do 2 eexists. split; [exact Hrun|].
  rewrite (proj1 (run_prefix_quiet W args m s _ _ _ name _ Hs)).
  split.
  { simpl. rewrite requests_app, Hrq. reflexivity. }
  split.
  { rewrite <- filter_sleep_pacing.
    rewrite (proj2 (run_prefix_quiet W args m s _ _ _ name _ Hs)).
    simpl. rewrite pacing_app, Hp. reflexivity. }
  split; [exact Htot|exact Hm].
Qed.

Lemma single_exit_run_requests_one_circuit_witness :
  import_module Ex.world "web" = Some Ex.web /\
  scan_unhindered Ex.world (Ex.args_for "cached-consensus" (Some "R2"%string) [])
    Ex.web /\
  exists s' t,
    run_module Ex.world "web" (Ex.args_for "cached-consensus" (Some "R2"%string) [])
      Ex2.s1
    = (Return tt, s', t) /\
    requests t = [["FH"; "R2"]%string] /\
    total_circuits (stats s') = 11.
Proof.
  assert (Hun : scan_unhindered Ex.world
                  (Ex.args_for "cached-consensus" (Some "R2"%string) []) Ex.web).
  { split; reflexivity. }
  split; [reflexivity|]. split; [exact Hun|].
  destruct (single_exit_run_requests_one_circuit Ex.world
              (Ex.args_for "cached-consensus" (Some "R2"%string) []) "web" Ex.web
              [(7, 443)] "R2"%string Ex2.s1 eq_refl eq_refl eq_refl eq_refl)
    as (s' & t & H & Hr & _ & Ht & _).
  - repeat constructor.
  - exact Hun.
  - exists s', t. split; [exact H|]. split; [exact Hr|exact Ht].
Defined.

(** X14.  However [main] ends, the modules it started are an initial
    segment of the requested ones, in the order given: none is skipped or
    run out of turn, and [modules_run] has grown by no more than the
    number of started modules that could be imported. *)
Theorem main_starts_a_prefix_of_the_modules W args s o s' t :
  main W args s = (o, s', t) ->
  (exists rest, module args = started t ++ rest) /\
  modules_run (new_Statistics W) <= modules_run (stats s')
    <= modules_run (new_Statistics W) + Z.of_nat (importable W (started t)).
Proof.
  intros H. destruct (main_cases W args s _ _ _ H)
    as [(_ & _ & Hs & _ & Hst)|[(_ & _ & _ & Hs & _ & Hst)
                               |(_ & _ & o' & t' & Hrun & _ & Hst & _)]].
  - rewrite Hs, Hst. split; [exists (module args); reflexivity|].
    unfold importable. simpl. lia.
  - rewrite Hs, Hst. split; [exists (module args); reflexivity|].
    unfold importable. simpl. lia.
  - rewrite Hst.
    destruct (run_modules_accounting W args (module args) _ _ _ _ Hrun)
      as (_ & _ & Hm & Hpre & _).
    split; [exact Hpre|exact Hm].
Qed.

Lemma main_starts_a_prefix_of_the_modules_witness :
  exists o s' t,
    main Ex.world
      (Ex.args_for "cached-consensus" None ["web"; "dead"; "any"]%string) Ex2.s1
    = (o, s', t) /\
    started t = ["web"; "dead"]%string /\
    0 <= modules_run (stats s') <= 2.
Proof.
  destruct (main Ex.world
              (Ex.args_for "cached-consensus" None ["web"; "dead"; "any"]%string)
              Ex2.s1) as [[o s'] t] eqn:E.
  destruct (main_starts_a_prefix_of_the_modules Ex.world _ _ _ _ _ E) as [_ Hm].
  assert (Hst : started t = ["web"; "dead"]%string).
  { vm_compute in E. injection E as <- <- <-. reflexivity. }
  rewrite Hst in Hm. exists o, s', t. split; [reflexivity|].
  split; [exact Hst|exact Hm].
Defined.

(** ** Errors of the collaborators *)

(** X15.  When the name given by [-v] is not one the logging module knows,
    [main] ends in the error of that lookup right after creating the
    statistics: Tor is not started, the controller is not contacted, no
    module is started and no circuit is requested. *)
Theorem unknown_verbosity_raises_before_tor W args s e :
  set_level_raises W (upper (verbosity args)) = Some e ->
  main W args s
  = (Raise e, mkState (new_Statistics W) (draws s) (calls s),
     [EvStats (new_Statistics W)]).
Proof.
  intros Hl. unfold main, bind, update_stats, or_raise. rewrite Hl. reflexivity.
Qed.

Lemma unknown_verbosity_raises_before_tor_witness :
  set_level_raises Ex.world (upper "bogus") = Some (KeyError "BOGUS") /\
  main Ex.world (Ex2.args_with_verbosity "bogus" ["web"%string]) Ex2.s1
  = (Raise (KeyError "BOGUS"), mkState (mkStatistics 0 0 0) 5 7,
     [EvStats (mkStatistics 0 0 0)]).
Proof.
  split; [reflexivity|].
  apply (unknown_verbosity_raises_before_tor Ex.world
           (Ex2.args_with_verbosity "bogus" ["web"%string]) Ex2.s1
           (KeyError "BOGUS") eq_refl).
Defined.

(** X16.  When [time.sleep] refuses the build delay, a run over a
    non-empty selection ends in that error after its first request:
    [total_circuits] has already grown by the whole selection, exactly one
    circuit was requested, and the module is not counted as run. *)
Theorem refused_sleep_aborts_run_after_first_request W args name m s l s1 t1 e :
  import_module W name = Some m ->
  select_exits W args m s = (Return l, s1, t1) ->
  l <> [] ->
  listener_raises W (probe m) = None ->
  sleep_raises W (build_delay args) = Some e ->
  exists s' t,
    run_module W name args s = (Raise e, s', t) /\
    requests t = [[first_hop args; hd EmptyString l]] /\
    List.filter is_sleep t = [] /\
    total_circuits (stats s') = total_circuits (stats s) + Z.of_nat (length l) /\
    modules_run (stats s') = modules_run (stats s).
Proof.
  intros Hi Hs Hne Hli Hsl. destruct l as [|x l]; [congruence|].
  destruct (select_exits_quiet W args m s _ _ _ Hs)
    as (Hrq & Hp & _ & Hst & _ & _).
  pose proof (build_loop_sleep_refused W args x l
                (mkState (add_total (Z.of_nat (length (x :: l))) (stats s1))
                         (draws s1) (calls s1)) e Hsl) as Hb.
  rewrite (run_module_imported W args name m s Hi).
  rewrite (scan_loop_raises W args m s (x :: l) s1 t1 e _ _ Hs Hne Hli Hb).
  do 2 eexists. split; [reflexivity|].
  cbn [stats calls draws hd].
  destruct (new_circuit_ok W (calls s1) [first_hop args; x]);
    cbn [requests]; rewrite requests_app, Hrq;
    rewrite <- filter_sleep_pacing; cbn [pacing]; rewrite pacing_app, Hp;
    cbn [app requests pacing List.filter stats add_total add_failed
         total_circuits modules_run];
    rewrite Hst; repeat split; reflexivity.
Qed.

Lemma refused_sleep_aborts_run_after_first_request_witness :
  sleep_raises Ex.world (Finite (-1)) = Some (IOError "Invalid argument") /\
  exists s' t,
    run_module Ex.world "any" (Ex2.args_with_delay (Finite (-1)) []) Ex.s0
    = (Raise (IOError "Invalid argument"), s', t) /\
    requests t = [["FH"; "R2"]%string] /\
    total_circuits (stats s') = 3 /\
    modules_run (stats s') = 0.
Proof.
  split; [reflexivity|].
  destruct (refused_sleep_aborts_run_after_first_request Ex.world
              (Ex2.args_with_delay (Finite (-1)) []) "any" Ex.any Ex.s0
              ["R2"; "R3"; "R1"]%string _ _ (IOError "Invalid argument")
              eq_refl eq_refl)
    as (s' & t & H & Hr & _ & Ht & Hm); [discriminate|reflexivity|reflexivity|].
  exists s', t. split; [exact H|]. split; [exact Hr|]. split; [exact Ht|exact Hm].
Defined.

(** X17.  When the event handler of the module cannot be built or
    registered, a run over a non-empty selection ends in that error before
    any circuit is requested, with [total_circuits] already grown by the
    whole selection and the module not counted as run. *)
Theorem refused_listener_aborts_run_before_requests W args name m s l s1 t1 e :
  import_module W name = Some m ->
  select_exits W args m s = (Return l, s1, t1) ->
  l <> [] ->
  listener_raises W (probe m) = Some e ->
  exists s' t,
    run_module W name args s = (Raise e, s', t) /\
    requests t = [] /\
    total_circuits (stats s') = total_circuits (stats s) + Z.of_nat (length l) /\
    failed_circuits (stats s') = failed_circuits (stats s) /\
    modules_run (stats s') = modules_run (stats s).
Proof.
  intros Hi Hs Hne Hli.
  destruct (select_exits_quiet W args m s _ _ _ Hs)
    as (Hrq & _ & _ & Hst & _ & _).
  rewrite (run_module_imported W args name m s Hi).
  rewrite (scan_listener_refused W args m s l s1 t1 e Hs Hne Hli).
  do 2 eexists. split; [reflexivity|].
  cbn [requests stats add_total total_circuits failed_circuits modules_run].
  rewrite requests_app, Hrq, Hst. repeat split; reflexivity.
Qed.

Lemma refused_listener_aborts_run_before_requests_witness :
  listener_raises Ex2.world_no_listener "any.probe"
  = Some (OtherError "add_event_listener") /\
  exists s' t,
    run_module Ex2.world_no_listener "any"
      (Ex.args_for "cached-consensus" None []) Ex.s0
    = (Raise (OtherError "add_event_listener"), s', t) /\
    requests t = [] /\
    total_circuits (stats s') = 3.
Proof.
  split; [reflexivity|].
  destruct (refused_listener_aborts_run_before_requests Ex2.world_no_listener
              (Ex.args_for "cached-consensus" None []) "any" Ex.any Ex.s0
              ["R2"; "R3"; "R1"]%string _ _ (OtherError "add_event_listener")
              eq_refl eq_refl)
    as (s' & t & H & Hr & Ht & _); [discriminate|reflexivity|].
  exists s', t. split; [exact H|]. split; [exact Hr|exact Ht].
Defined.
